(** * Flow desktop front-end: threat timeline and column persistence

    A shallow embedding of [desktop_front/threat_timeline_widget.py] and
    [desktop_front/ui_utils.py].

    - Python values keep their optionality: a model field that may be [None]
      is an [option], truthiness tests ([x or d], [if x]) are written out.
    - Exceptions are an explicit [result]; code that both mutates widgets or
      the log and may raise runs in the state-and-exception monad [M], where
      (as in Python) the mutations made before a raise survive it.
    - The collaborators outside the two files (ORM queries, the ancestry
      lookup, the clock, local-time formatting) are oracles of an [Env].
    - The Qt table is a plain grid of cells with a header.  Of what Qt does on
      its own, only the slots connected to [sectionResized] are modelled.
      Not modelled: interactive sorting (a cell is written where [setItem]
      is told to, as in a table without an active sort column), the width Qt
      gives to a stretched last section, the limits Qt puts on section
      widths, scroll bars and painting.  Where one of these would matter,
      the statements speak of the rows handed to the table and of the
      sections the code sets.  The serialisation of a header
      ([saveState] / [restoreState]) is Qt's and stays abstract, as a
      [HeaderCodec]; what the column manager needs of it is stated once, as
      [HeaderCodecLaws].
    - The refresh cycle runs on a [World] (table and log), the column
      manager on a [Gui] (table and settings store). *)

From stdpp Require Import gmap strings list pretty.
From Stdlib Require Import ZArith Sorting.Sorted Sorting.Permutation.

Open Scope string_scope.
Open Scope list_scope.
Open Scope Z_scope.

(** ** Python values *)

Module Py.

(** [bool(s)] for an optional string: [None] and [""] are falsy. *)
Definition truthy_str (x : option string) : bool :=
  match x with
  | Some s => negb (String.eqb s "")
  | None => false
  end.

(** [bool(n)] for an optional integer: [None] and [0] are falsy. *)
Definition truthy_int (x : option Z) : bool :=
  match x with
  | Some n => negb (n =? 0)
  | None => false
  end.

(** [x or d] where [x] is an optional string and [d] a string. *)
Definition or_str (x : option string) (d : string) : string :=
  match x with
  | Some s => if String.eqb s "" then d else s
  | None => d
  end.

(** [str(n)] of an integer. *)
Definition str_int (n : Z) : string := pretty n.

(** [str(x)] as an f-string field renders it: [None] prints as ["None"]. *)
Definition fmt_str (x : option string) : string :=
  match x with Some s => s | None => "None" end.

Definition fmt_int (x : option Z) : string :=
  match x with Some n => str_int n | None => "None" end.

(** [timedelta(hours=h)], in microseconds (the resolution of [datetime]). *)
Definition timedelta_hours (h : Z) : Z := h * 3600 * 1000000.
Definition timedelta_seconds (s : Z) : Z := s * 1000000.
Definition timedelta_minutes (m : Z) : Z := m * 60 * 1000000.

End Py.

(** ** Exceptions and results *)

Record exn := Exception { exn_msg : string }.

Inductive result (A : Type) :=
| Ok (a : A)
| Raise (e : exn).
Arguments Ok {A} a.
Arguments Raise {A} e.

Definition rbind {A B} (r : result A) (k : A -> result B) : result B :=
  match r with
  | Ok a => k a
  | Raise e => Raise e
  end.

(** A [for] loop that builds a list and stops at the first exception. *)
Fixpoint rmap {A B} (f : A -> result B) (l : list A) : result (list B) :=
  match l with
  | [] => Ok []
  | x :: l' => rbind (f x) (fun y => rbind (rmap f l') (fun ys => Ok (y :: ys)))
  end.

(** ** The stored records ([core.models], as the widget reads them) *)

Module Connection.
Record t := {
  src_ip : option string;
  dst_ip : option string;
  dst_port : option Z;
  pid : option Z
}.
End Connection.

Module Alert.
(** [connection] is a lazily loaded foreign key: reading it may hit the
    database and raise; when it loads it is a connection or [None]. *)
Record t := {
  timestamp : Z;
  alert_type : option string;
  severity : option string;
  message : option string;
  src_ip : option string;
  dst_ip : option string;
  dst_port : option Z;
  connection : result (option Connection.t)
}.
End Alert.

Module QuarantinedFile.
(** [other_columns] stands for whatever else the model stores; the widget
    reads [detected_at] and [filename] only. *)
Record t := {
  detected_at : Z;
  filename : string;
  other_columns : list (string * string)
}.
End QuarantinedFile.

(** ** Stable descending sort

    [order_by("-field")] and [list.sort(key=..., reverse=True)]: elements
    with equal keys keep their relative order. *)

Section DescSort.
Context {A : Type} (key : A -> Z).

Fixpoint insert_desc (x : A) (l : list A) : list A :=
  match l with
  | [] => [x]
  | y :: l' => if key x <? key y then y :: insert_desc x l' else x :: l
  end.

Definition sort_desc (l : list A) : list A := foldr insert_desc [] l.

Definition desc (x y : A) : Prop := key y <= key x.

(** The elements of [l] whose key is [k], in the order they have in [l]. *)
Definition with_key (k : Z) (l : list A) : list A :=
  List.filter (fun x => key x =? k) l.
End DescSort.

(** ** The Qt table widget *)

Module Qt.

Record Item := { text : string; align_center : bool }.

Inductive ResizeMode := Interactive | Fixed | Stretch | ResizeToContents.

(** What [QHeaderView.saveState] captures and [restoreState] puts back. *)
Record HeaderState := {
  sizes : list Z;
  visual_order : list nat;
  modes : list ResizeMode;
  movable : bool;
  stretch_last : bool
}.

(** A slot connected to [sectionResized]: the bound method
    [manager.save_state], known by its object and the key it writes. *)
Record Slot := { slot_owner : nat; slot_key : string }.

Record Table := {
  hstate : HeaderState;
  resized_slots : list Slot;
  viewport_width : Z;
  cells : list (list (option Item));
  spans : list (nat * nat * nat * nat)
}.

Definition columnCount (t : Table) : nat := length (sizes (hstate t)).
Definition rowCount (t : Table) : nat := length (cells t).

Definition with_cells (t : Table) (c : list (list (option Item)))
    (s : list (nat * nat * nat * nat)) : Table :=
  {| hstate := hstate t; resized_slots := resized_slots t;
     viewport_width := viewport_width t; cells := c; spans := s |}.

Definition with_hstate (t : Table) (h : HeaderState) : Table :=
  {| hstate := h; resized_slots := resized_slots t;
     viewport_width := viewport_width t; cells := cells t; spans := spans t |}.

Definition with_slots (t : Table) (s : list Slot) : Table :=
  {| hstate := hstate t; resized_slots := s;
     viewport_width := viewport_width t; cells := cells t; spans := spans t |}.

(** [setRowCount(n)]: rows beyond [n] go, with the spans that start in
    them; missing rows are added empty.  The grid alone changes: a scroll
    bar that comes or goes, and the width of the viewport with it, is not
    modelled. *)
Definition setRowCount (n : nat) (t : Table) : Table :=
  with_cells t
    (take n (cells t) ++
     replicate (n - length (cells t)) (replicate (columnCount t) None))
    (filter (fun s => (s.1.1.1 < n)%nat) (spans t)).

(** [setItem(r, c, item)]: ignored outside the grid.  The item stays in row
    [r]: the table is taken without an active sort column. *)
Definition setItem (r c : nat) (it : Item) (t : Table) : Table :=
  with_cells t (alter (fun row => <[c := Some it]> row) r (cells t)) (spans t).

(** [setSpan(r, c, rowSpan, colSpan)]. *)
Definition setSpan (r c rs cs : nat) (t : Table) : Table :=
  with_cells t (cells t) ((r, c, rs, cs) :: spans t).

End Qt.

(** ** Widget state and the monad of widget code *)

Inductive Level := DEBUG | INFO | ERROR.

Record World := {
  table : Qt.Table;
  log : list (Level * string)              (* records emitted, oldest first *)
}.

Definition set_table (w : World) (t : Qt.Table) : World :=
  {| table := t; log := log w |}.

Definition M (A : Type) : Type := World -> result A * World.

Definition ret {A} (a : A) : M A := fun w => (Ok a, w).

Definition bind {A B} (m : M A) (k : A -> M B) : M B :=
  fun w => match m w with
           | (Ok a, w') => k a w'
           | (Raise e, w') => (Raise e, w')
           end.

Notation "x <- m ;; k" := (bind m (fun x => k))
  (at level 100, m at next level, right associativity).
Notation "m ;;; k" := (bind m (fun _ => k))
  (at level 100, right associativity).

(** A fallible call that touches no widget state. *)
Definition lift {A} (r : result A) : M A := fun w => (r, w).

(** [try: body except Exception as e: handler(e)]. *)
Definition try_except {A} (body : M A) (handler : exn -> M A) : M A :=
  fun w => match body w with
           | (Ok a, w') => (Ok a, w')
           | (Raise e, w') => handler e w'
           end.

(** The world after one more log record. *)
Definition logged (lvl : Level) (msg : string) (w : World) : World :=
  {| table := table w; log := log w ++ [(lvl, msg)] |}.

(** [log.info(msg)], [log.debug(msg)], [log.error(msg)]. *)
Definition emit (lvl : Level) (msg : string) : M unit :=
  fun w => (Ok tt, logged lvl msg w).

Definition on_table (f : Qt.Table -> Qt.Table) : M unit :=
  fun w => (Ok tt, set_table w (f (table w))).

(** [for x in l: body(x)]. *)
Fixpoint for_each {A} (body : A -> M unit) (l : list A) : M unit :=
  match l with
  | [] => ret tt
  | x :: l' => body x ;;; for_each body l'
  end.

(** [enumerate(l)], counting from [i]. *)
Fixpoint enumerate_from {A} (i : nat) (l : list A) : list (nat * A) :=
  match l with
  | [] => []
  | x :: l' => (i, x) :: enumerate_from (S i) l'
  end.

Definition enumerate {A} (l : list A) : list (nat * A) := enumerate_from 0 l.

(** ** The threat timeline widget *)

Module Row.
(** The dictionary built per event, keys as in the source. *)
Record t := {
  time : Z;
  type : string;
  severity : string;
  src : string;
  dst : string;
  details : string;
  process_chain : string
}.
End Row.

Module ThreatTimelineWidget.

(** What one refresh cycle meets outside the widget. *)
Record Env := {
  db_close : result unit;                     (* db_connection.close() *)
  alert_table : list Alert.t;                 (* rows of Alert *)
  alert_fault : option exn;                   (* the alert query raises *)
  quarantine_table : list QuarantinedFile.t;  (* rows of QuarantinedFile *)
  quarantine_fault : option exn;              (* the quarantine query raises *)
  build_process_chain : Z -> result string;   (* core.process_tree *)
  now : Z;                                    (* timezone.now() *)
  localtime_strftime : Z -> result string     (* localtime(t).strftime(...) *)
}.

(** [list(Alert.objects.all().order_by("-timestamp")[:100])]. *)
Definition fetch_alerts (env : Env) : result (list Alert.t) :=
  match alert_fault env with
  | Some e => Raise e
  | None => Ok (take 100 (sort_desc Alert.timestamp (alert_table env)))
  end.

(** [QuarantinedFile.objects.filter(detected_at__gte=window)]. *)
Definition in_window (window : Z) (q : QuarantinedFile.t) : bool :=
  window <=? QuarantinedFile.detected_at q.

(** [list(QuarantinedFile.objects.filter(detected_at__gte=window)
           .order_by("-detected_at")[:50])]. *)
Definition fetch_quarantine (env : Env) (window : Z)
    : result (list QuarantinedFile.t) :=
  match quarantine_fault env with
  | Some e => Raise e
  | None =>
      Ok (take 50 (sort_desc QuarantinedFile.detected_at
                     (List.filter (in_window window) (quarantine_table env))))
  end.

(** Source address: the alert's own, else the connection's, else empty. *)
Definition resolve_src (a : Alert.t) (conn : option Connection.t) : string :=
  let src := Py.or_str (Alert.src_ip a) "" in
  match conn with
  | Some c => if String.eqb src "" then Py.or_str (Connection.src_ip c) "" else src
  | None => src
  end.

(** The alert's own destination: [f"{alert.dst_ip}{dst_port}"] when
    [alert.dst_ip] is truthy, else [""]. *)
Definition own_dst (a : Alert.t) : string :=
  if Py.truthy_str (Alert.dst_ip a) then
    let dst_port :=
      if Py.truthy_int (Alert.dst_port a)
      then ":" +:+ Py.fmt_int (Alert.dst_port a) else "" in
    Py.fmt_str (Alert.dst_ip a) +:+ dst_port
  else "".

(** Destination (lines 156-161). *)
Definition resolve_dst (a : Alert.t) (conn : option Connection.t) : string :=
  match conn with
  | Some c =>
      if Py.truthy_str (Connection.dst_ip c)
      then Py.fmt_str (Connection.dst_ip c) +:+ ":" +:+
           Py.fmt_int (Connection.dst_port c)
      else own_dst a
  | None => own_dst a
  end.

(** Process chain (lines 164-170): the lookup's failure is caught here. *)
Definition resolve_chain (env : Env) (conn : option Connection.t) : string :=
  match conn with
  | Some c =>
      match Connection.pid c with
      | Some p =>
          if negb (p =? 0) then
            match build_process_chain env p with
            | Ok chain => chain
            | Raise _ => "PID " +:+ Py.str_int p
            end
          else ""
      | None => ""
      end
  | None => ""
  end.

(** The dictionary appended for an alert (lines 172-182), [conn] being
    what [alert.connection] gave. *)
Definition build_row (env : Env) (a : Alert.t) (conn : option Connection.t)
    : Row.t :=
  {| Row.time := Alert.timestamp a;
     Row.type := Py.or_str (Alert.alert_type a) "Alert";
     Row.severity := Py.or_str (Alert.severity a) "";
     Row.src := resolve_src a conn;
     Row.dst := resolve_dst a conn;
     Row.details := Py.or_str (Alert.message a) "";
     Row.process_chain := resolve_chain env conn |}.

(** The body of [for alert in alerts] (lines 148-182). *)
Definition alert_row (env : Env) (a : Alert.t) : result Row.t :=
  rbind (Alert.connection a) (fun conn => Ok (build_row env a conn)).

(** The body of [for q in q_events] (lines 195-205). *)
Definition quarantine_row (q : QuarantinedFile.t) : Row.t :=
  {| Row.time := QuarantinedFile.detected_at q;
     Row.type := "Quarantine";
     Row.severity := "high";
     Row.src := "";
     Row.dst := "";
     Row.details := "File quarantined: " +:+ QuarantinedFile.filename q;
     Row.process_chain := "" |}.

(** [rows.sort(key=lambda r: r["time"], reverse=True)]. *)
Definition sort_rows (rows : list Row.t) : list Row.t :=
  sort_desc Row.time rows.

(** The three log messages of [refresh]. *)
Definition found_message (alerts : list Alert.t) : string :=
  "Threat timeline: found " +:+ pretty (length alerts) +:+ " alerts".

Definition quarantine_message (e : exn) : string :=
  "Could not fetch quarantine events: " +:+ exn_msg e.

Definition error_message (e : exn) : string :=
  "Error refreshing threat timeline: " +:+ exn_msg e.

(** Lines 137-211: everything up to and including the sort.  The table is
    not touched here. *)
Definition collect_rows (env : Env) : M (list Row.t) :=
  lift (db_close env) ;;;
  alerts <- lift (fetch_alerts env) ;;
  emit INFO (found_message alerts) ;;;
  rows <- lift (rmap (alert_row env) alerts) ;;
  let window := now env - Py.timedelta_hours 24 in
  rows <- try_except
            (q_events <- lift (fetch_quarantine env window) ;;
             ret (rows ++ map quarantine_row q_events))
            (fun e =>
               emit DEBUG (quarantine_message e) ;;;
               ret rows) ;;
  ret (sort_rows rows).

(** [_set_item(row, col, text)]: a centred cell. *)
Definition _set_item (row col : nat) (text : string) : M unit :=
  on_table (Qt.setItem row col {| Qt.text := text; Qt.align_center := true |}).

Definition empty_message : string := "No security events found.".

(** The body of [for row_idx, row in enumerate(rows)] (lines 224-231). *)
Definition render_row (env : Env) (ir : nat * Row.t) : M unit :=
  let '(row_idx, row) := ir in
  local_time <- lift (localtime_strftime env (Row.time row)) ;;
  _set_item row_idx 0 local_time ;;;
  _set_item row_idx 1 (Row.type row) ;;;
  _set_item row_idx 2 (Row.severity row) ;;;
  _set_item row_idx 3 (Row.src row) ;;;
  _set_item row_idx 4 (Row.dst row) ;;;
  _set_item row_idx 5 (Row.details row) ;;;
  _set_item row_idx 6 (Row.process_chain row).

(** Lines 214-231: clear, then rebuild. *)
Definition update_table (env : Env) (rows : list Row.t) : M unit :=
  on_table (Qt.setRowCount 0) ;;;
  match rows with
  | [] =>
      on_table (Qt.setRowCount 1) ;;;
      on_table (Qt.setItem 0 0 {| Qt.text := empty_message;
                                  Qt.align_center := false |}) ;;;
      on_table (Qt.setSpan 0 0 1 7)
  | _ :: _ =>
      on_table (Qt.setRowCount (length rows)) ;;;
      for_each (render_row env) (enumerate rows)
  end.

(** The [try] block of [refresh]. *)
Definition refresh_body (env : Env) : M unit :=
  rows <- collect_rows env ;;
  update_table env rows.

(** [refresh] (lines 131-235). *)
Definition refresh (env : Env) : M unit :=
  try_except (refresh_body env)
    (fun e => emit ERROR (error_message e)).

End ThreatTimelineWidget.

(** ** Header operations *)

Module Header.
Import Qt.

Definition setSectionsMovable (b : bool) (h : HeaderState) : HeaderState :=
  {| sizes := sizes h; visual_order := visual_order h; modes := modes h;
     movable := b; stretch_last := stretch_last h |}.

(** [setStretchLastSection(b)]: the property alone; the width Qt then gives
    to the last section is not modelled. *)
Definition setStretchLastSection (b : bool) (h : HeaderState) : HeaderState :=
  {| sizes := sizes h; visual_order := visual_order h; modes := modes h;
     movable := movable h; stretch_last := b |}.

(** [setSectionResizeMode(mode)]: every section. *)
Definition setSectionResizeMode_all (mode : ResizeMode) (h : HeaderState)
    : HeaderState :=
  {| sizes := sizes h; visual_order := visual_order h;
     modes := replicate (length (modes h)) mode;
     movable := movable h; stretch_last := stretch_last h |}.

(** [setSectionResizeMode(i, mode)]. *)
Definition setSectionResizeMode (i : nat) (mode : ResizeMode) (h : HeaderState)
    : HeaderState :=
  {| sizes := sizes h; visual_order := visual_order h;
     modes := <[i := mode]> (modes h);
     movable := movable h; stretch_last := stretch_last h |}.

Definition set_size (i : nat) (width : Z) (h : HeaderState) : HeaderState :=
  {| sizes := <[i := width]> (sizes h); visual_order := visual_order h;
     modes := modes h; movable := movable h; stretch_last := stretch_last h |}.

End Header.

(** ** Saved header states

    [QHeaderView.saveState] serialises the header layout into a byte array
    and [restoreState] reads one back.  Both belong to Qt and stay abstract
    here, together with the truth value Python gives such a byte array
    ([if state]). *)

Class HeaderCodec := {
  Blob : Type;
  saveState : Qt.HeaderState -> Blob;
  restoreState : Blob -> Qt.HeaderState -> Qt.HeaderState;
  blob_truthy : Blob -> bool
}.

(** What Qt promises of them: a saved state is not empty, and restoring it
    into a header with as many sections reinstates the saved layout. *)
Class HeaderCodecLaws `{HeaderCodec} : Prop := {
  save_truthy : forall h, blob_truthy (saveState h) = true;
  restore_save : forall h h0,
    length (Qt.sizes h0) = length (Qt.sizes h) ->
    restoreState (saveState h) h0 = h
}.

(** ** The table and the settings store *)

Section GuiState.
Context `{HeaderCodec}.

(** What the column manager works on: its table and the application's
    settings, [QSettings("Flow", "FlowApp")]. *)
Record Gui := {
  gtable : Qt.Table;
  settings : gmap string Blob
}.

Definition set_gtable (g : Gui) (t : Qt.Table) : Gui :=
  {| gtable := t; settings := settings g |}.

Definition on_header (f : Qt.HeaderState -> Qt.HeaderState) (g : Gui) : Gui :=
  set_gtable g (Qt.with_hstate (gtable g) (f (Qt.hstate (gtable g)))).

(** [settings.setValue(key, header.saveState())]: what a connected
    [save_state] slot does when it runs. *)
Definition save_under (key : string) (g : Gui) : Gui :=
  {| gtable := gtable g;
     settings := <[key := saveState (Qt.hstate (gtable g))]> (settings g) |}.

(** Emitting [sectionResized]: the connected slots run, in connection order. *)
Definition emit_sectionResized (g : Gui) : Gui :=
  foldl (fun g s => save_under (Qt.slot_key s) g) g (Qt.resized_slots (gtable g)).

(** [resizeSection(i, width)]: nothing happens for a section that does not
    exist, a negative width or an unchanged width; otherwise the section is
    resized and [sectionResized] is emitted.  The width is taken as given,
    as Qt does between its minimum and maximum section size; the stretched
    last section is not adjusted. *)
Definition resizeSection (i : nat) (width : Z) (g : Gui) : Gui :=
  match Qt.sizes (Qt.hstate (gtable g)) !! i with
  | Some old =>
      if (width <? 0) || (old =? width) then g
      else emit_sectionResized (on_header (Header.set_size i width) g)
  | None => g
  end.

(** [table.setColumnWidth(i, width)]. *)
Definition setColumnWidth (i : nat) (width : Z) (g : Gui) : Gui :=
  resizeSection i width g.

(** The user drags the border of section [i] to [width]. *)
Definition user_resize (i : nat) (width : Z) (g : Gui) : Gui :=
  resizeSection i width g.

End GuiState.

(** ** The column manager *)

Module TableColumnManager.

(** [self.table] is the table of the [Gui]; [ident] is the object's
    identity, which is what makes two bound [save_state] methods the same
    slot. *)
Record t := {
  ident : nat;
  settings_key : string;
  default_set : bool
}.

Definition __init__ (ident : nat) (settings_key : string) : t :=
  {| ident := ident; settings_key := settings_key; default_set := false |}.

Definition set_default (m : t) (b : bool) : t :=
  {| ident := ident m; settings_key := settings_key m; default_set := b |}.

Definition slot (m : t) : Qt.Slot :=
  {| Qt.slot_owner := ident m; Qt.slot_key := settings_key m |}.

Definition slot_eqb (a b : Qt.Slot) : bool :=
  Nat.eqb (Qt.slot_owner a) (Qt.slot_owner b)
  && String.eqb (Qt.slot_key a) (Qt.slot_key b).

(** [sectionResized.disconnect(slot)]: drops one connection of the slot,
    raises when there is none. *)
Fixpoint disconnect (s : Qt.Slot) (l : list Qt.Slot) : result (list Qt.Slot) :=
  match l with
  | [] => Raise (Exception "disconnect() failed")
  | s' :: l' =>
      if slot_eqb s s' then Ok l'
      else rbind (disconnect s l') (fun r => Ok (s' :: r))
  end.

(** [sectionResized.connect(slot)]. *)
Definition connect (s : Qt.Slot) (l : list Qt.Slot) : list Qt.Slot := l ++ [s].

Section WithCodec.
Context `{HeaderCodec}.

(** [for i in range(columnCount()): setSectionResizeMode(i, Interactive)]. *)
Definition interactive_each (g : Gui) : Gui :=
  foldl (fun g i => on_header (Header.setSectionResizeMode i Qt.Interactive) g)
        g (seq 0 (Qt.columnCount (gtable g))).

(** [save_state] (lines 58-62). *)
Definition save_state (m : t) (g : Gui) : Gui :=
  save_under (settings_key m) g.

(** [restore_state] (lines 34-56).  [settings.value(key)] is [None] when the
    key is absent. *)
Definition restore_state (m : t) (g : Gui) : t * Gui :=
  let state := settings g !! settings_key m in
  let '(m, g) :=
    match state with
    | Some st =>
        if blob_truthy st
        then (set_default m true, on_header (restoreState st) g)
        else (set_default m false, g)
    | None => (set_default m false, g)
    end in
  let slots :=
    match disconnect (slot m) (Qt.resized_slots (gtable g)) with
    | Ok l => l
    | Raise _ => Qt.resized_slots (gtable g)
    end in
  let g := set_gtable g (Qt.with_slots (gtable g) (connect (slot m) slots)) in
  let g := on_header (Header.setSectionResizeMode_all Qt.Interactive) g in
  (m, interactive_each g).

(** [setup] (lines 23-32). *)
Definition setup (m : t) (g : Gui) : t * Gui :=
  let g := on_header (Header.setSectionsMovable true) g in
  let g := on_header (Header.setStretchLastSection true) g in
  let g := on_header (Header.setSectionResizeMode_all Qt.Interactive) g in
  let g := interactive_each g in
  restore_state m g.

(** [handle_resize] (lines 64-83). *)
Definition handle_resize (m : t) (g : Gui) : t * Gui :=
  if negb (default_set m) then
    let width := Qt.viewport_width (gtable g) in
    if 300 <? width then
      let count := Qt.columnCount (gtable g) in
      if (0 <? count)%nat then
        let col_width := width / Z.of_nat count in
        let stretch_last := Qt.stretch_last (Qt.hstate (gtable g)) in
        let limit := if stretch_last then (count - 1)%nat else count in
        let g := foldl (fun g i => setColumnWidth i col_width g) g (seq 0 limit) in
        (set_default m true, g)
      else (m, g)
    else (m, g)
  else (m, g).

End WithCodec.

End TableColumnManager.

(** ** The widget's event handlers *)

Section WidgetEvents.
Context `{HeaderCodec}.

(** The widget: its table and the settings store, its log, and the column
    manager once [__init__] has created it ([hasattr(self, "col_manager")]). *)
Record Widget := {
  gui : Gui;
  wlog : list (Level * string);
  col_manager : option TableColumnManager.t
}.

(** [cleanup] (lines 122-124). *)
Definition cleanup (wd : Widget) : Widget :=
  match col_manager wd with
  | Some m =>
      {| gui := TableColumnManager.save_state m (gui wd);
         wlog := wlog wd;
         col_manager := Some m |}
  | None => wd
  end.

End WidgetEvents.

(** * Vocabulary of the statements *)

Import ThreatTimelineWidget.
Import TableColumnManager.

(** The quarantine window's lower bound in a cycle. *)
Definition window_start (env : Env) : Z := now env - Py.timedelta_hours 24.

(** The rows contributed by the quarantine query: none when it raises. *)
Definition quarantine_rows (env : Env) : list Row.t :=
  match fetch_quarantine env (window_start env) with
  | Ok qs => map quarantine_row qs
  | Raise _ => []
  end.

Definition centred (s : string) : option Qt.Item :=
  Some {| Qt.text := s; Qt.align_center := true |}.

(** The seven cells [render_row] writes for a row. *)
Definition row_cells (local_time : string) (r : Row.t) : list (option Qt.Item) :=
  [centred local_time; centred (Row.type r); centred (Row.severity r);
   centred (Row.src r); centred (Row.dst r); centred (Row.details r);
   centred (Row.process_chain r)].

(** The local-time strings of the rows, when every conversion succeeds. *)
Definition local_times (env : Env) (rows : list Row.t) : result (list string) :=
  rmap (fun r => localtime_strftime env (Row.time r)) rows.

(** The table with its grid replaced. *)
Definition regrid (w : World) (c : list (list (option Qt.Item)))
    (s : list (nat * nat * nat * nat)) : World :=
  set_table w (Qt.with_cells (table w) c s).

(** The widget's table has the seven columns given to it at construction
    ([setColumnCount(7)]). *)
Definition seven_columns (w : World) : Prop := Qt.columnCount (table w) = 7%nat.

(** A port is present when the source's own test, [if alert.dst_port], lets
    it through. *)
Definition has_port (p : option Z) : Prop := Py.truthy_int p = true.

(** A field is absent when it is [None] or the empty string. *)
Definition absent (x : option string) : Prop := x = None \/ x = Some "".

(** A header that differs from [h] in its resize modes only. *)
Definition with_modes (ms : list Qt.ResizeMode) (h : Qt.HeaderState) : Qt.HeaderState :=
  {| Qt.sizes := Qt.sizes h; Qt.visual_order := Qt.visual_order h; Qt.modes := ms;
     Qt.movable := Qt.movable h; Qt.stretch_last := Qt.stretch_last h |}.

(** A computation that writes nothing to the log. *)
Definition quiet {A} (m : M A) : Prop :=
  forall w, log (m w).2 = log w.

(** The seven empty cells of a row that has not been filled. *)
Definition empty_row : list (option Qt.Item) := replicate 7 None.

(** A computation whose outcome and whose effect on the table do not depend
    on what the log holds. *)
Definition log_blind {A} (m : M A) : Prop :=
  forall lvl msg w, m (logged lvl msg w) = ((m w).1, logged lvl msg (m w).2).

(** The same environment with a quarantine table that is empty and a
    quarantine query that works. *)
Definition without_quarantine (env : Env) : Env :=
  {| db_close := db_close env;
     alert_table := alert_table env;
     alert_fault := alert_fault env;
     quarantine_table := [];
     quarantine_fault := None;
     build_process_chain := build_process_chain env;
     now := now env;
     localtime_strftime := localtime_strftime env |}.

(** The state stored under [key] is the saved state of the header as it is
    now. *)
Definition in_sync `{HeaderCodec} (key : string) (g : Gui) : Prop :=
  settings g !! key = Some (saveState (Qt.hstate (gtable g))).

(** Some slot connected to [sectionResized] writes under [key]. *)
Definition connected (key : string) (t : Qt.Table) : Prop :=
  exists s, In s (Qt.resized_slots t) /\ Qt.slot_key s = key.

(** How many times the slot [s] is connected to [sectionResized]. *)
Definition connections (s : Qt.Slot) (t : Qt.Table) : nat :=
  length (List.filter (slot_eqb s) (Qt.resized_slots t)).


(** The same environment with an ancestry lookup that never raises: where the
    original one raises, it returns the text [refresh] falls back to. *)
Definition with_pid_fallback (env : Env) : Env :=
  {| db_close := db_close env;
     alert_table := alert_table env;
     alert_fault := alert_fault env;
     quarantine_table := quarantine_table env;
     quarantine_fault := quarantine_fault env;
     build_process_chain :=
       fun p => match build_process_chain env p with
                | Ok chain => Ok chain
                | Raise _ => Ok ("PID " +:+ Py.str_int p)
                end;
     now := now env;
     localtime_strftime := localtime_strftime env |}.

(** * Sample data *)

Module Sample.

Definition conn42 : Connection.t :=
  {| Connection.src_ip := Some "10.0.0.2";
     Connection.dst_ip := Some "10.0.0.5";
     Connection.dst_port := Some 443;
     Connection.pid := Some 42 |}.

Definition scan_alert : Alert.t :=
  {| Alert.timestamp := 1000;
     Alert.alert_type := Some "PortScan";
     Alert.severity := Some "medium";
     Alert.message := Some "port scan";
     Alert.src_ip := None;
     Alert.dst_ip := None;
     Alert.dst_port := None;
     Alert.connection := Ok (Some conn42) |}.


Definition no_process : exn := Exception "no such process".
Definition db_down : exn := Exception "connection refused".

(** A healthy environment holding [scan_alert] only, where every ancestry
    lookup fails. *)
Definition env_lookup_fails : Env :=
  {| db_close := Ok tt;
     alert_table := [scan_alert];
     alert_fault := None;
     quarantine_table := [];
     quarantine_fault := None;
     build_process_chain := fun _ => Raise no_process;
     now := 5000;
     localtime_strftime := fun t => Ok (pretty t) |}.

(** Converting a time to local time raises (a naive datetime, say). *)
Definition naive_time : exn := Exception "localtime() cannot be applied to a naive datetime".

Definition env_naive_times : Env :=
  {| db_close := Ok tt;
     alert_table := [scan_alert];
     alert_fault := None;
     quarantine_table := [];
     quarantine_fault := None;
     build_process_chain := fun _ => Raise no_process;
     now := 5000;
     localtime_strftime := fun _ => Raise naive_time |}.

(** The quarantine query raises; the alert query does not. *)
Definition env_quarantine_down : Env :=
  {| db_close := Ok tt;
     alert_table := [scan_alert];
     alert_fault := None;
     quarantine_table := [];
     quarantine_fault := Some db_down;
     build_process_chain := fun p => Ok ("init -> " +:+ pretty p);
     now := 5000;
     localtime_strftime := fun t => Ok (pretty t) |}.

(** The alert query raises. *)
Definition env_db_down : Env :=
  {| db_close := Ok tt;
     alert_table := [scan_alert];
     alert_fault := Some db_down;
     quarantine_table := [];
     quarantine_fault := None;
     build_process_chain := fun _ => Raise no_process;
     now := 5000;
     localtime_strftime := fun t => Ok (pretty t) |}.

Definition header7 : Qt.HeaderState :=
  {| Qt.sizes := [100; 100; 100; 100; 100; 100; 100];
     Qt.visual_order := [0; 1; 2; 3; 4; 5; 6]%nat;
     Qt.modes := replicate 7 Qt.Interactive;
     Qt.movable := false;
     Qt.stretch_last := true |}.

(** A seven-column table that shows one row from an earlier cycle. *)
Definition old_table : Qt.Table :=
  {| Qt.hstate := header7;
     Qt.resized_slots := [];
     Qt.viewport_width := 0;
     Qt.cells := [[centred "2024-01-01 00:00:00"; centred "Alert"; centred "low";
                   centred ""; centred ""; centred "old"; centred ""]];
     Qt.spans := [] |}.

Definition world0 : World :=
  {| table := old_table; log := [] |}.

End Sample.

Module SampleMerge.

Definition alert_at (t : Z) (msg : string) : Alert.t :=
  {| Alert.timestamp := t;
     Alert.alert_type := Some "PortScan";
     Alert.severity := Some "medium";
     Alert.message := Some msg;
     Alert.src_ip := Some "10.0.0.9";
     Alert.dst_ip := None;
     Alert.dst_port := None;
     Alert.connection := Ok None |}.

Definition file_at (t : Z) (name : string) : QuarantinedFile.t :=
  {| QuarantinedFile.detected_at := t;
     QuarantinedFile.filename := name;
     QuarantinedFile.other_columns := [] |}.

(** Two alerts and two quarantined files; one alert and one file carry the
    same timestamp. *)
Definition env_mixed : Env :=
  {| db_close := Ok tt;
     alert_table := [alert_at 1000 "first"; alert_at 3000 "second"];
     alert_fault := None;
     quarantine_table := [file_at 3000 "a.exe"; file_at 2000 "b.exe"];
     quarantine_fault := None;
     build_process_chain := fun p => Ok ("init -> " +:+ pretty p);
     now := 5000;
     localtime_strftime := fun t => Ok (pretty t) |}.

End SampleMerge.

Module SampleDst.

(** A connection that has a destination address and no destination port. *)
Definition conn_no_port : Connection.t :=
  {| Connection.src_ip := Some "10.0.0.2";
     Connection.dst_ip := Some "10.0.0.5";
     Connection.dst_port := None;
     Connection.pid := None |}.

(** The same with port [0], which the alert branch treats as no port. *)
Definition conn_port_0 : Connection.t :=
  {| Connection.src_ip := Some "10.0.0.2";
     Connection.dst_ip := Some "10.0.0.5";
     Connection.dst_port := Some 0;
     Connection.pid := None |}.

(** An alert without destination of its own, attached to [conn]. *)
Definition alert_on (conn : option Connection.t) : Alert.t :=
  {| Alert.timestamp := 1000;
     Alert.alert_type := Some "PortScan";
     Alert.severity := Some "medium";
     Alert.message := Some "port scan";
     Alert.src_ip := None;
     Alert.dst_ip := None;
     Alert.dst_port := None;
     Alert.connection := Ok conn |}.

(** An alert with its own destination address, port [p], no connection. *)
Definition alert_own (p : option Z) : Alert.t :=
  {| Alert.timestamp := 1000;
     Alert.alert_type := Some "PortScan";
     Alert.severity := Some "medium";
     Alert.message := Some "port scan";
     Alert.src_ip := None;
     Alert.dst_ip := Some "10.0.0.5";
     Alert.dst_port := p;
     Alert.connection := Ok None |}.

Definition env_no_port : Env :=
  {| db_close := Ok tt;
     alert_table := [alert_on (Some conn_no_port)];
     alert_fault := None;
     quarantine_table := [];
     quarantine_fault := None;
     build_process_chain := fun p => Ok ("init -> " +:+ pretty p);
     now := 5000;
     localtime_strftime := fun t => Ok (pretty t) |}.

End SampleDst.

Module SampleWindow.

Definition day : Z := Py.timedelta_hours 24.

(** Detected 24 hours and 1 second before [now]. *)
Definition too_old : QuarantinedFile.t :=
  {| QuarantinedFile.detected_at := 2 * day - (day + Py.timedelta_seconds 1);
     QuarantinedFile.filename := "old.bin";
     QuarantinedFile.other_columns := [] |}.

(** Detected 23 hours and 59 minutes before [now]. *)
Definition recent : QuarantinedFile.t :=
  {| QuarantinedFile.detected_at :=
       2 * day - (Py.timedelta_hours 23 + Py.timedelta_minutes 59);
     QuarantinedFile.filename := "new.bin";
     QuarantinedFile.other_columns := [("reason", "signature")] |}.

Definition env_window : Env :=
  {| db_close := Ok tt;
     alert_table := [];
     alert_fault := None;
     quarantine_table := [too_old; recent];
     quarantine_fault := None;
     build_process_chain := fun p => Ok ("init -> " +:+ pretty p);
     now := 2 * day;
     localtime_strftime := fun t => Ok (pretty t) |}.

End SampleWindow.

Module SampleDraw.

(** Two stored alerts, oldest first, and the two quarantined files of
    [SampleWindow]. *)
Definition env_draw : Env :=
  {| db_close := Ok tt;
     alert_table := [SampleMerge.alert_at 1000 "first"; SampleMerge.alert_at 3000 "second"];
     alert_fault := None;
     quarantine_table := [SampleWindow.too_old; SampleWindow.recent];
     quarantine_fault := None;
     build_process_chain := fun p => Ok ("init -> " +:+ pretty p);
     now := 2 * SampleWindow.day;
     localtime_strftime := fun t => Ok (pretty t) |}.

End SampleDraw.

Module SampleEmpty.

(** Nothing stored at all. *)
Definition env_empty : Env :=
  {| db_close := Ok tt;
     alert_table := [];
     alert_fault := None;
     quarantine_table := [];
     quarantine_fault := None;
     build_process_chain := fun p => Ok ("init -> " +:+ pretty p);
     now := 5000;
     localtime_strftime := fun t => Ok (pretty t) |}.

End SampleEmpty.

Module SampleBare.


End SampleBare.

Module SampleLayout.

(** A codec that keeps the layout itself as the saved state. *)
Definition snapshot_codec : HeaderCodec :=
  {| Blob := Qt.HeaderState;
     saveState := fun h => h;
     restoreState := fun st _ => st;
     blob_truthy := fun _ => true |}.

(** A manager for the timeline table, on its first run. *)
Definition manager : TableColumnManager.t :=
  TableColumnManager.__init__ 1 "timeline_table_state".

(** The table of a first session: nothing saved yet. *)
Definition first_session : @Gui snapshot_codec :=
  @Build_Gui snapshot_codec Sample.old_table ∅.

(** The same table in a later session: default widths, nothing connected,
    and the settings as the earlier session left them. *)
Definition later_session (s : gmap string Qt.HeaderState) : @Gui snapshot_codec :=
  @Build_Gui snapshot_codec Sample.old_table s.

End SampleLayout.

Module SampleResize.

(** The table of the first session as its first resize event finds it: set
    up by the manager, 900 wide, the last section stretched over what the
    others leave. *)
Definition shown : @Gui SampleLayout.snapshot_codec :=
  @Build_Gui SampleLayout.snapshot_codec
    {| Qt.hstate :=
         {| Qt.sizes := [100; 100; 100; 100; 100; 100; 300];
            Qt.visual_order := [0; 1; 2; 3; 4; 5; 6]%nat;
            Qt.modes := replicate 7 Qt.Interactive;
            Qt.movable := true;
            Qt.stretch_last := true |};
       Qt.resized_slots := [slot SampleLayout.manager];
       Qt.viewport_width := 900;
       Qt.cells := Qt.cells Sample.old_table;
       Qt.spans := [] |}
    ∅.

End SampleResize.

Module SampleMore.

(** An alert whose connection cannot be read. *)
Definition broken_alert : Alert.t :=
  {| Alert.timestamp := 500;
     Alert.alert_type := Some "Beacon";
     Alert.severity := Some "high";
     Alert.message := Some "beacon";
     Alert.src_ip := Some "10.0.0.7";
     Alert.dst_ip := None;
     Alert.dst_port := None;
     Alert.connection := Raise Sample.db_down |}.

Definition env_broken_connection : Env :=
  {| db_close := Ok tt;
     alert_table := [Sample.scan_alert; broken_alert];
     alert_fault := None;
     quarantine_table := [];
     quarantine_fault := None;
     build_process_chain := fun p => Ok ("init -> " +:+ pretty p);
     now := 5000;
     localtime_strftime := fun t => Ok (pretty t) |}.

(** Two alerts, stored oldest first, and no quarantined file. *)
Definition env_alerts_only : Env :=
  {| db_close := Ok tt;
     alert_table := [SampleMerge.alert_at 1000 "first"; SampleMerge.alert_at 3000 "second"];
     alert_fault := None;
     quarantine_table := [];
     quarantine_fault := None;
     build_process_chain := fun p => Ok ("init -> " +:+ pretty p);
     now := 5000;
     localtime_strftime := fun t => Ok (pretty t) |}.

(** Every time converts, except the time 1000. *)
Definition env_one_bad_time : Env :=
  {| db_close := Ok tt;
     alert_table := [];
     alert_fault := None;
     quarantine_table := [SampleMerge.file_at 3000 "a.exe"; SampleMerge.file_at 1000 "b.exe"];
     quarantine_fault := None;
     build_process_chain := fun p => Ok ("init -> " +:+ pretty p);
     now := 5000;
     localtime_strftime :=
       fun t => if t =? 1000 then Raise Sample.naive_time else Ok (pretty t) |}.

(** Detected exactly 24 hours before [now]. *)
Definition on_the_edge : QuarantinedFile.t :=
  {| QuarantinedFile.detected_at := SampleWindow.day;
     QuarantinedFile.filename := "edge.bin";
     QuarantinedFile.other_columns := [] |}.

Definition env_edge : Env :=
  {| db_close := Ok tt;
     alert_table := [];
     alert_fault := None;
     quarantine_table := [SampleWindow.too_old; on_the_edge];
     quarantine_fault := None;
     build_process_chain := fun p => Ok ("init -> " +:+ pretty p);
     now := 2 * SampleWindow.day;
     localtime_strftime := fun t => Ok (pretty t) |}.

(** An alert with addresses of its own, on a connection that has others. *)
Definition alert_both : Alert.t :=
  {| Alert.timestamp := 1000;
     Alert.alert_type := Some "PortScan";
     Alert.severity := Some "medium";
     Alert.message := Some "port scan";
     Alert.src_ip := Some "192.168.1.9";
     Alert.dst_ip := Some "192.168.1.1";
     Alert.dst_port := Some 22;
     Alert.connection := Ok (Some Sample.conn42) |}.

(** The first session once [setup] has run. *)
Definition ready : @Gui SampleLayout.snapshot_codec :=
  (setup SampleLayout.manager SampleLayout.first_session).2.

(** The widget of the first session. *)
Definition widget0 : @Widget SampleLayout.snapshot_codec :=
  @Build_Widget SampleLayout.snapshot_codec ready [] (Some SampleLayout.manager).

End SampleMore.

(** * Properties *)

(** ** The stable descending sort *)

Section DescSortFacts.
Context {A : Type} (key : A -> Z).

Lemma with_key_app k (l1 l2 : list A) :
  with_key key k (l1 ++ l2) = with_key key k l1 ++ with_key key k l2.
Proof. apply List.filter_app. Qed.

Lemma insert_desc_perm x (l : list A) :
  Permutation (insert_desc key x l) (x :: l).
Proof.
  induction l as [|y l IH]; simpl; [reflexivity|].
  destruct (key x <? key y); [|reflexivity].
  rewrite IH. apply perm_swap.
Qed.

Lemma sort_desc_perm (l : list A) : Permutation (sort_desc key l) l.
Proof.
  induction l as [|x l IH]; simpl; [reflexivity|].
  rewrite insert_desc_perm. by constructor.
Qed.

Lemma sort_desc_length (l : list A) : length (sort_desc key l) = length l.
Proof. apply Permutation_length, sort_desc_perm. Qed.

Lemma insert_desc_sorted x (l : list A) :
  StronglySorted (desc key) l -> StronglySorted (desc key) (insert_desc key x l).
Proof.
  induction 1 as [|y l Hl IH Hy]; simpl.
  - repeat constructor.
  - destruct (Z.ltb_spec (key x) (key y)) as [Hlt|Hge].
    + constructor; [exact IH|].
      rewrite insert_desc_perm. constructor; [unfold desc; lia | exact Hy].
    + constructor; [by constructor|].
      constructor; [exact Hge|].
      eapply Forall_impl; [exact Hy|]. unfold desc. intros z Hz. simpl in *. lia.
Qed.

Lemma sort_desc_sorted (l : list A) : StronglySorted (desc key) (sort_desc key l).
Proof.
  induction l as [|x l IH]; simpl; [constructor|].
  by apply insert_desc_sorted.
Qed.

Lemma insert_desc_with_key k x (l : list A) :
  with_key key k (insert_desc key x l) = with_key key k (x :: l).
Proof.
  induction l as [|y l IH]; [reflexivity|].
  cbn [insert_desc]. destruct (Z.ltb_spec (key x) (key y)) as [Hlt|Hge];
    [|reflexivity].
  unfold with_key in *. cbn [List.filter] in *. rewrite IH.
  destruct (Z.eqb_spec (key x) k), (Z.eqb_spec (key y) k); try reflexivity.
  lia.
Qed.

(** Stability: among equal keys the sort changes nothing. *)
Lemma sort_desc_stable k (l : list A) :
  with_key key k (sort_desc key l) = with_key key k l.
Proof.
  induction l as [|x l IH]; [reflexivity|].
  cbn [sort_desc foldr]. rewrite insert_desc_with_key.
  unfold with_key in *. cbn [List.filter]. fold (sort_desc key l).
  by rewrite IH.
Qed.

(** After [take n] of the sorted list, what was cut is no larger than what
    was kept. *)
Lemma take_sorted_most_recent n (l : list A) x y :
  StronglySorted (desc key) l ->
  In x (take n l) -> In y (drop n l) -> key y <= key x.
Proof.
  intros Hs. revert n. induction Hs as [|z l Hl IH Hz]; intros n Hx Hy.
  - by rewrite take_nil in Hx.
  - destruct n as [|n]; [contradiction|].
    cbn in Hx, Hy. destruct Hx as [->|Hx].
    + rewrite List.Forall_forall in Hz. apply Hz.
      rewrite <- (take_drop n l). apply in_or_app. by right.
    + eauto.
Qed.

End DescSortFacts.

(** ** One refresh cycle, step by step *)

(** [collect_rows] with its monadic plumbing executed. *)
Lemma collect_rows_unfold env w :
  collect_rows env w =
    match db_close env with
    | Raise e => (Raise e, w)
    | Ok _ =>
        match fetch_alerts env with
        | Raise e => (Raise e, w)
        | Ok alerts =>
            let w1 := logged INFO (found_message alerts) w in
            match rmap (alert_row env) alerts with
            | Raise e => (Raise e, w1)
            | Ok arows =>
                match fetch_quarantine env (window_start env) with
                | Ok qs => (Ok (sort_rows (arows ++ map quarantine_row qs)), w1)
                | Raise e =>
                    (Ok (sort_rows arows), logged DEBUG (quarantine_message e) w1)
                end
            end
        end
    end.
Proof.
  unfold collect_rows, window_start, bind, lift, try_except, emit, ret.
  destruct (db_close env); [|reflexivity].
  destruct (fetch_alerts env) as [alerts|]; [|reflexivity].
  destruct (rmap (alert_row env) alerts) as [arows|]; [|reflexivity].
  destruct (fetch_quarantine env _); reflexivity.
Qed.

(** Collecting the rows leaves the table alone. *)
Lemma collect_rows_frame env w :
  table (collect_rows env w).2 = table w.
Proof.
  rewrite collect_rows_unfold.
  destruct (db_close env); [|done].
  destruct (fetch_alerts env) as [alerts|]; [|done].
  cbn zeta.
  destruct (rmap (alert_row env) alerts) as [arows|]; [|done].
  destruct (fetch_quarantine env _); done.
Qed.

(** [refresh] returns normally whatever happens inside. *)
Lemma refresh_returns env w : (refresh env w).1 = Ok tt.
Proof.
  unfold refresh, try_except, emit.
  destruct (refresh_body env w) as [[[]|e] w']; reflexivity.
Qed.

(** An exception in the collecting phase is the outcome of the [try] block. *)
Lemma refresh_body_collect_raise env w e w1 :
  collect_rows env w = (Raise e, w1) -> refresh_body env w = (Raise e, w1).
Proof. intros H. unfold refresh_body, bind. by rewrite H. Qed.

(** ** Rebuilding the table *)

Lemma render_row_ok env i r lt w done rest :
  Qt.cells (table w) = done ++ replicate 7 None :: rest ->
  length done = i ->
  localtime_strftime env (Row.time r) = Ok lt ->
  render_row env (i, r) w =
    (Ok tt, regrid w (done ++ row_cells lt r :: rest) (Qt.spans (table w))).
Proof.
  intros Hc Hi Hlt.
  unfold render_row, bind, lift, _set_item, on_table. rewrite Hlt.
  unfold regrid, set_table, Qt.setItem, Qt.with_cells. cbn.
  rewrite Hc, <- Hi.
  replace (length done) with (length done + 0)%nat by lia.
  rewrite !alter_app_r. reflexivity.
Qed.

Lemma render_rows_ok env rows : forall lts w done,
  Qt.cells (table w) = done ++ replicate (length rows) (replicate 7 None) ->
  local_times env rows = Ok lts ->
  for_each (render_row env) (enumerate_from (length done) rows) w =
    (Ok tt, regrid w (done ++ zip_with row_cells lts rows) (Qt.spans (table w))).
Proof.
  induction rows as [|r rows IH]; intros lts w done Hc Hl.
  - cbn in *. injection Hl as <-. cbn. rewrite app_nil_r in *.
    unfold ret, regrid, set_table, Qt.with_cells. rewrite <- Hc.
    by destruct w as [[] ?].
  - cbn [local_times rmap] in Hl.
    destruct (localtime_strftime env (Row.time r)) as [lt|] eqn:Hlt; [|done].
    cbn [rbind] in Hl. fold (local_times env rows) in Hl.
    destruct (local_times env rows) as [lts'|] eqn:Hl'; [|done].
    injection Hl as <-.
    cbn [enumerate_from for_each]. unfold bind at 1.
    change (Qt.cells (table w) =
            done ++ replicate 7 None :: replicate (length rows) (replicate 7 None))
      in Hc.
    rewrite (render_row_ok env _ r lt w done _ Hc eq_refl Hlt).
    specialize (IH lts' (regrid w (done ++ row_cells lt r :: replicate (length rows) (replicate 7 None)) (Qt.spans (table w))) (done ++ [row_cells lt r])).
    rewrite length_app in IH. cbn [length] in IH.
    replace (length done + 1)%nat with (S (length done)) in IH by lia.
    rewrite IH; [| cbn; by rewrite <- app_assoc | reflexivity].
    cbn. rewrite <- app_assoc. reflexivity.
Qed.

(** [setRowCount(0)] empties the grid and drops every span. *)
Lemma setRowCount_0 t : Qt.setRowCount 0 t = Qt.with_cells t [] [].
Proof.
  unfold Qt.setRowCount. f_equal.
  induction (Qt.spans t) as [|s l IHl]; [done|].
  rewrite filter_cons. case_decide; [lia|done].
Qed.

(** [setRowCount(n)] on an emptied grid gives [n] empty rows. *)
Lemma setRowCount_fresh n t :
  Qt.setRowCount n (Qt.with_cells t [] []) =
  Qt.with_cells t (replicate n (replicate (Qt.columnCount t) None)) [].
Proof.
  unfold Qt.setRowCount, Qt.with_cells, Qt.columnCount. cbn.
  rewrite take_nil, Nat.sub_0_r. reflexivity.
Qed.

(** A non-empty list of rows whose times all convert is rendered row by row,
    in order, and no span is left. *)
Lemma update_table_rows env rows lts w :
  rows <> [] ->
  seven_columns w ->
  local_times env rows = Ok lts ->
  update_table env rows w = (Ok tt, regrid w (zip_with row_cells lts rows) []).
Proof.
  intros Hne H7 Hl. destruct rows as [|r rows]; [done|].
  unfold update_table, bind at 1, on_table at 1.
  unfold bind at 1, on_table at 1.
  rewrite setRowCount_0. cbn [table set_table]. rewrite setRowCount_fresh.
  unfold seven_columns in H7. rewrite H7.
  rewrite (render_rows_ok env (r :: rows) lts _ []); [done|done|exact Hl].
Qed.

(** With no rows at all, the table shows the one spanning message row. *)
Lemma update_table_empty env w :
  seven_columns w ->
  update_table env [] w =
    (Ok tt,
     regrid w
       [[Some {| Qt.text := empty_message; Qt.align_center := false |};
         None; None; None; None; None; None]]
       [(0, 0, 1, 7)%nat]).
Proof.
  intros H7. unfold seven_columns in H7.
  unfold update_table, bind, on_table.
  rewrite setRowCount_0. cbn [table set_table]. rewrite setRowCount_fresh, H7.
  reflexivity.
Qed.

(** ** The rows of a cycle and the grid it leaves *)

Lemma rmap_Forall2 {A B} (f : A -> result B) l ys :
  rmap f l = Ok ys -> Forall2 (fun x y => f x = Ok y) l ys.
Proof.
  revert ys. induction l as [|x l IH]; intros ys H; cbn in H.
  - injection H as <-. constructor.
  - destruct (f x) as [y|] eqn:Hy; [|done]. cbn in H.
    destruct (rmap f l) as [ys'|]; [|done]. injection H as <-.
    constructor; auto.
Qed.


(** The rows of a cycle whose collecting phase succeeds. *)
Lemma collect_rows_ok env w rows w1 :
  collect_rows env w = (Ok rows, w1) ->
  exists alerts arows,
    db_close env = Ok tt /\
    fetch_alerts env = Ok alerts /\
    rmap (alert_row env) alerts = Ok arows /\
    rows = sort_rows (arows ++ quarantine_rows env).
Proof.
  rewrite collect_rows_unfold. unfold quarantine_rows.
  destruct (db_close env) as [[]|]; [|done].
  destruct (fetch_alerts env) as [alerts|]; [|done]. cbn zeta.
  destruct (rmap (alert_row env) alerts) as [arows|] eqn:Ha; [|done].
  destruct (fetch_quarantine env _) as [qs|]; intros [= <- <-];
    exists alerts, arows; rewrite ?app_nil_r; done.
Qed.

(** What [refresh] hands to the table once the rows are collected. *)
Lemma refresh_body_hands_over env w rows w1 :
  collect_rows env w = (Ok rows, w1) ->
  refresh_body env w = update_table env rows w1.
Proof. intros Hc. unfold refresh_body, bind. by rewrite Hc. Qed.


(** So is every quarantine row. *)
Lemma collect_rows_has_quarantine env w rows w1 r :
  collect_rows env w = (Ok rows, w1) ->
  In r (quarantine_rows env) ->
  In r rows.
Proof.
  intros Hc Hin.
  destruct (collect_rows_ok env w rows w1 Hc) as (alerts' & arows & _ & _ & _ & ->).
  unfold sort_rows. eapply Permutation_in; [symmetry; apply sort_desc_perm|].
  apply in_or_app. by right.
Qed.

(** If the rebuilding loop finishes, every time was converted. *)
Lemma render_rows_finished env rows : forall i w,
  (for_each (render_row env) (enumerate_from i rows) w).1 = Ok tt ->
  exists lts, local_times env rows = Ok lts.
Proof.
  induction rows as [|r rows IH]; intros i w H; [by exists []|].
  cbn [enumerate_from for_each] in H. unfold bind at 1 in H.
  cbn [local_times rmap]. fold (local_times env rows).
  unfold render_row at 1, bind at 1, lift in H.
  destruct (localtime_strftime env (Row.time r)) as [lt|]; [|done].
  cbn in H. apply IH in H as [lts ->]. by eexists.
Qed.

(** After a [try] block that ran to its end, the grid holds what was written
    for the sorted rows, row by row. *)
Lemma refresh_body_ok env w w' :
  seven_columns w ->
  refresh_body env w = (Ok tt, w') ->
  exists rows w1,
    collect_rows env w = (Ok rows, w1) /\
    match rows with
    | [] => Qt.cells (table w') =
              [[Some {| Qt.text := empty_message; Qt.align_center := false |};
                None; None; None; None; None; None]] /\
            Qt.spans (table w') = [(0, 0, 1, 7)%nat]
    | _ => exists lts, local_times env rows = Ok lts /\
             Qt.cells (table w') = zip_with row_cells lts rows /\
             Qt.spans (table w') = []
    end.
Proof.
  intros H7 H. unfold refresh_body, bind in H.
  destruct (collect_rows env w) as [[rows|e] w1] eqn:Hc; [|done].
  exists rows, w1. split; [done|].
  assert (H7' : seven_columns w1).
  { unfold seven_columns in *. change w1 with (Ok rows, w1).2.
    rewrite <- Hc. by rewrite (collect_rows_frame env w). }
  destruct rows as [|r rows].
  - rewrite update_table_empty in H by done. by injection H as <-.
  - assert (exists lts, local_times env (r :: rows) = Ok lts) as [lts Hl].
    { unfold update_table, bind at 1, on_table at 1 in H.
      unfold bind at 1, on_table at 1 in H.
      eapply (render_rows_finished env (r :: rows) 0%nat). unfold enumerate in H.
      by rewrite H. }
    rewrite (update_table_rows env _ lts) in H by done.
    injection H as <-. by exists lts.
Qed.

(** ** Failures of the refresh cycle *)

(** C1, as amended.  An exception that leaves the [try] block of [refresh]
    (one the handlers around the ancestry lookup and around the quarantine
    query do not absorb) is caught by [refresh] and logged as an error, and
    [refresh] returns normally; when it was raised while the rows were being
    collected, that is before the table is cleared, the table is exactly what
    it was before the cycle. *)
Theorem refresh_failure_logged_table_kept env w e w1 :
  refresh_body env w = (Raise e, w1) ->
  refresh env w = (Ok tt, logged ERROR (error_message e) w1) /\
  log (refresh env w).2 = log w1 ++ [(ERROR, error_message e)] /\
  ((collect_rows env w).1 = Raise e -> table (refresh env w).2 = table w).
Proof.
  intros H.
  assert (Hr : refresh env w = (Ok tt, logged ERROR (error_message e) w1)).
  { unfold refresh, try_except. rewrite H. reflexivity. }
  rewrite Hr. split; [reflexivity|]. split; [reflexivity|].
  intros Hc. cbn.
  destruct (collect_rows env w) as [r w1'] eqn:Hc'. cbn in Hc. subst r.
  rewrite (refresh_body_collect_raise env w e w1' Hc') in H.
  injection H as <-.
  change w1' with (Raise (A:=list Row.t) e, w1').2. rewrite <- Hc'.
  apply collect_rows_frame.
Qed.

Lemma refresh_failure_logged_table_kept_witness :
  refresh_body Sample.env_db_down Sample.world0 = (Raise Sample.db_down, Sample.world0) /\
  (collect_rows Sample.env_db_down Sample.world0).1 = Raise Sample.db_down /\
  refresh Sample.env_db_down Sample.world0 =
    (Ok tt, logged ERROR "Error refreshing threat timeline: connection refused"
              Sample.world0) /\
  table (refresh Sample.env_db_down Sample.world0).2 = Sample.old_table.
Proof.
  pose proof (refresh_failure_logged_table_kept
                Sample.env_db_down Sample.world0 Sample.db_down Sample.world0
                eq_refl) as (H1 & _ & H3).
  split; [reflexivity|]. split; [reflexivity|]. split; [exact H1|].
  exact (H3 eq_refl).
Defined.

(** C1 as it is written fails at the two places where [refresh] handles an
    exception on the spot.  In the first cycle the ancestry lookup raises
    while the rows are collected: nothing is logged for it.  In the second the
    quarantine query raises: a debug record is logged.  Both exceptions occur
    before the table is rebuilt, and in both cycles the rows that were on
    display are replaced. *)
Lemma refresh_handled_failures_rebuild_table :
  (fetch_alerts Sample.env_lookup_fails = Ok [Sample.scan_alert] /\
   Alert.connection Sample.scan_alert = Ok (Some Sample.conn42) /\
   Connection.pid Sample.conn42 = Some 42 /\
   build_process_chain Sample.env_lookup_fails 42 = Raise Sample.no_process /\
   log (refresh Sample.env_lookup_fails Sample.world0).2 =
     [(INFO, "Threat timeline: found 1 alerts")] /\
   ~ ((exists e, In (ERROR, error_message e)
                   (log (refresh Sample.env_lookup_fails Sample.world0).2)) /\
      table (refresh Sample.env_lookup_fails Sample.world0).2 = table Sample.world0)) /\
  (fetch_quarantine Sample.env_quarantine_down
     (window_start Sample.env_quarantine_down) = Raise Sample.db_down /\
   log (refresh Sample.env_quarantine_down Sample.world0).2 =
     [(INFO, "Threat timeline: found 1 alerts");
      (DEBUG, "Could not fetch quarantine events: connection refused")] /\
   table (refresh Sample.env_quarantine_down Sample.world0).2 <> table Sample.world0).
Proof.
  split.
  - repeat (split; [reflexivity|]).
    intros [_ Ht]. vm_compute in Ht. discriminate Ht.
  - repeat (split; [reflexivity|]).
    intros Ht. vm_compute in Ht. discriminate Ht.
Qed.

(** A failure of the quarantine query is logged at debug level and the cycle
    goes on with the alert rows alone. *)
Lemma quarantine_failure_skipped env w alerts arows e :
  db_close env = Ok tt ->
  fetch_alerts env = Ok alerts ->
  rmap (alert_row env) alerts = Ok arows ->
  fetch_quarantine env (window_start env) = Raise e ->
  collect_rows env w =
    (Ok (sort_rows arows),
     logged DEBUG (quarantine_message e) (logged INFO (found_message alerts) w)).
Proof.
  intros Hdb Hf Ha Hq. by rewrite collect_rows_unfold, Hdb, Hf, Ha, Hq.
Qed.

(** An exception raised while the table is being rebuilt is caught and logged
    as well, but by then the old rows are gone: here the one new row is still
    empty when the conversion of its time raises. *)
Example refresh_failure_while_rebuilding :
  refresh Sample.env_naive_times Sample.world0 =
    (Ok tt,
     logged ERROR (error_message Sample.naive_time)
       (logged INFO "Threat timeline: found 1 alerts"
          (regrid Sample.world0 [replicate 7 None] []))).
Proof. reflexivity. Qed.

(** ** Merging and ordering *)

Example sort_desc_keeps_ties :
  sort_desc fst [(1, "a"); (3, "b"); (3, "c"); (2, "d"); (3, "e")] =
    [(3, "b"); (3, "c"); (3, "e"); (2, "d"); (1, "a")].
Proof. reflexivity. Qed.


(** C2.  The rows handed to the table are the alert rows (in fetch order)
    followed by the quarantine rows (in fetch order), sorted by the stored
    timestamp, newest first; rows with the same timestamp stay in that
    insertion order.  The key is the raw stored time: the local-time
    conversion happens only when a row is rendered. *)
Theorem merged_rows_sorted_stable env w rows w1 :
  collect_rows env w = (Ok rows, w1) ->
  exists alerts arows,
    fetch_alerts env = Ok alerts /\
    Forall2 (fun a r => alert_row env a = Ok r /\ Row.time r = Alert.timestamp a)
            alerts arows /\
    Forall (fun r => exists q, r = quarantine_row q /\
                               Row.time r = QuarantinedFile.detected_at q)
           (quarantine_rows env) /\
    rows = sort_rows (arows ++ quarantine_rows env) /\
    refresh_body env w = update_table env rows w1 /\
    StronglySorted (desc Row.time) rows /\
    Permutation rows (arows ++ quarantine_rows env) /\
    forall t, with_key Row.time t rows =
              with_key Row.time t arows ++ with_key Row.time t (quarantine_rows env).
Proof.
  intros Hc.
  destruct (collect_rows_ok env w rows w1 Hc) as (alerts & arows & _ & Hf & Ha & ->).
  exists alerts, arows. split; [done|]. split.
  { apply rmap_Forall2 in Ha. eapply Forall2_impl; [exact Ha|].
    intros a r Hr. split; [done|]. unfold alert_row in Hr.
    destruct (Alert.connection a); [|done]. by injection Hr as <-. }
  split.
  { unfold quarantine_rows. destruct (fetch_quarantine env _) as [qs|]; [|constructor].
    apply List.Forall_forall. intros r (q & <- & _)%in_map_iff. by exists q. }
  split; [done|]. split.
  { unfold refresh_body, bind. by rewrite Hc. }
  split; [apply sort_desc_sorted|]. split; [apply sort_desc_perm|].
  intros t. unfold sort_rows. by rewrite sort_desc_stable, with_key_app.
Qed.

Lemma merged_rows_sorted_stable_witness :
  (collect_rows SampleMerge.env_mixed Sample.world0).1 =
    Ok [build_row SampleMerge.env_mixed (SampleMerge.alert_at 3000 "second") None;
        quarantine_row (SampleMerge.file_at 3000 "a.exe");
        quarantine_row (SampleMerge.file_at 2000 "b.exe");
        build_row SampleMerge.env_mixed (SampleMerge.alert_at 1000 "first") None] /\
  exists rows, StronglySorted (desc Row.time) rows /\
    map Row.time rows = [3000; 3000; 2000; 1000].
Proof.
  split; [reflexivity|].
  destruct (merged_rows_sorted_stable SampleMerge.env_mixed Sample.world0 _ _ eq_refl)
    as (alerts & arows & _ & _ & _ & _ & _ & Hs & _).
  eexists. split; [exact Hs|reflexivity].
Defined.

(** ** Destination resolution *)

Lemma append_empty (s : string) : s +:+ "" = s.
Proof.
  induction s as [|ch s IH]; [done|].
  change (String ch (s +:+ "") = String ch s). by rewrite IH.
Qed.

(** The three branches of lines 156-161. *)
Lemma resolve_dst_cases a conn :
  resolve_dst a conn =
    match conn with
    | Some c =>
        if Py.truthy_str (Connection.dst_ip c)
        then Py.fmt_str (Connection.dst_ip c) +:+ ":" +:+
             Py.fmt_int (Connection.dst_port c)
        else own_dst a
    | None => own_dst a
    end /\
  (Py.truthy_str (Alert.dst_ip a) = true -> Py.truthy_int (Alert.dst_port a) = true ->
   own_dst a = Py.fmt_str (Alert.dst_ip a) +:+ ":" +:+ Py.fmt_int (Alert.dst_port a)) /\
  (Py.truthy_str (Alert.dst_ip a) = true -> Py.truthy_int (Alert.dst_port a) = false ->
   own_dst a = Py.fmt_str (Alert.dst_ip a)) /\
  (Py.truthy_str (Alert.dst_ip a) = false -> own_dst a = "").
Proof.
  split; [by destruct conn|]. unfold own_dst.
  repeat split; intros; repeat match goal with H : _ = _ |- _ => rewrite H end;
    try reflexivity.
  apply append_empty.
Qed.

(** C3, at the input where the code departs from it.  The alert has no
    destination port and its connection has a destination address but no
    destination port: the destination cell still carries the separator,
    followed by the text of the missing port.  The alert's own branch, on the
    same address, leaves the separator out, for a missing port and for port
    [0] alike. *)
Theorem connection_branch_keeps_separator :
  ~ has_port (Alert.dst_port (SampleDst.alert_on (Some SampleDst.conn_no_port))) /\
  ~ has_port (Connection.dst_port SampleDst.conn_no_port) /\
  resolve_dst (SampleDst.alert_on (Some SampleDst.conn_no_port))
              (Some SampleDst.conn_no_port) = "10.0.0.5:None" /\
  Qt.cells (table (refresh SampleDst.env_no_port Sample.world0).2) =
    [[centred "1000"; centred "PortScan"; centred "medium"; centred "10.0.0.2";
      centred "10.0.0.5:None"; centred "port scan"; centred ""]] /\
  resolve_dst (SampleDst.alert_on (Some SampleDst.conn_port_0))
              (Some SampleDst.conn_port_0) = "10.0.0.5:0" /\
  resolve_dst (SampleDst.alert_own None) None = "10.0.0.5" /\
  resolve_dst (SampleDst.alert_own (Some 0)) None = "10.0.0.5".
Proof.
  unfold has_port. repeat split; try reflexivity; cbn; discriminate.
Qed.

(** ** Process ancestry *)



(** ** Query limits and the quarantine window *)

Lemma In_take {A} n (l : list A) x : In x (take n l) -> In x l.
Proof. intros H. rewrite <- (take_drop n l). apply in_or_app. by left. Qed.

Lemma In_take_or_drop {A} n (l : list A) x :
  In x l -> In x (take n l) \/ In x (drop n l).
Proof. intros H. rewrite <- (take_drop n l) in H. by apply in_app_or. Qed.

(** [take n] of a descending sort of [l] holds the [n] largest keys of [l]. *)
Lemma take_sort_desc_largest {A} (key : A -> Z) n (l : list A) x y :
  In x (take n (sort_desc key l)) -> In y l -> ~ In y (take n (sort_desc key l)) ->
  key y <= key x.
Proof.
  intros Hx Hy Hny.
  apply (take_sorted_most_recent key n (sort_desc key l)); [apply sort_desc_sorted|done|].
  apply (Permutation_in _ (Permutation_sym (sort_desc_perm key l))) in Hy.
  by destruct (In_take_or_drop n _ _ Hy).
Qed.

(** C6.  A cycle draws [min 100 n] of the [n] stored alerts, never more than
    100: the most recent ones, no stored alert that is left out being more
    recent than one that is drawn.  It draws [min 50 k] of the [k] quarantine
    records detected in the 24 hours up to the refresh time, never more than
    50, and again the most recent ones.  A record detected 24 hours and 1
    second before the refresh time is not drawn; one detected 23 hours and 59
    minutes before it is inside the window, and is drawn whenever the window
    holds no more than 50 records. *)
Theorem fetch_limits_and_window env alerts qs :
  fetch_alerts env = Ok alerts ->
  fetch_quarantine env (window_start env) = Ok qs ->
  (length alerts <= 100)%nat /\
  length alerts = Nat.min 100 (length (alert_table env)) /\
  (exists left_out,
     Permutation (alerts ++ left_out) (alert_table env) /\
     forall a b, In a alerts -> In b left_out ->
                 Alert.timestamp b <= Alert.timestamp a) /\
  (forall a, In a alerts -> In a (alert_table env)) /\
  (forall a b, In a alerts -> In b (alert_table env) -> ~ In b alerts ->
               Alert.timestamp b <= Alert.timestamp a) /\
  (length qs <= 50)%nat /\
  length qs =
    Nat.min 50 (length (List.filter (in_window (window_start env))
                          (quarantine_table env))) /\
  (exists left_out,
     Permutation (qs ++ left_out)
       (List.filter (in_window (window_start env)) (quarantine_table env)) /\
     forall q q', In q qs -> In q' left_out ->
                  QuarantinedFile.detected_at q' <= QuarantinedFile.detected_at q) /\
  (forall q, In q qs ->
             In q (quarantine_table env) /\
             now env - Py.timedelta_hours 24 <= QuarantinedFile.detected_at q) /\
  (forall q q', In q qs -> In q' (quarantine_table env) ->
                now env - Py.timedelta_hours 24 <= QuarantinedFile.detected_at q' ->
                ~ In q' qs ->
                QuarantinedFile.detected_at q' <= QuarantinedFile.detected_at q) /\
  (forall q, QuarantinedFile.detected_at q =
               now env - (Py.timedelta_hours 24 + Py.timedelta_seconds 1) ->
             ~ In q qs) /\
  (forall q, In q (quarantine_table env) ->
             QuarantinedFile.detected_at q =
               now env - (Py.timedelta_hours 23 + Py.timedelta_minutes 59) ->
             in_window (window_start env) q = true /\
             ((length (List.filter (in_window (window_start env))
                         (quarantine_table env)) <= 50)%nat -> In q qs)).
Proof.
  unfold fetch_alerts, fetch_quarantine.
  destruct (alert_fault env); [done|]. destruct (quarantine_fault env); [done|].
  intros [= <-] [= <-].
  set (win := List.filter _ _).
  assert (Hwin : forall q, In q win <->
            In q (quarantine_table env) /\
            now env - Py.timedelta_hours 24 <= QuarantinedFile.detected_at q).
  { intros q. unfold win. rewrite List.filter_In. unfold in_window, window_start.
    by rewrite Z.leb_le. }
  split; [rewrite length_take; lia|].
  split; [by rewrite length_take, sort_desc_length|].
  split.
  { exists (drop 100 (sort_desc Alert.timestamp (alert_table env))).
    split; [rewrite take_drop; apply sort_desc_perm|].
    intros a b Ha Hb.
    by eapply (take_sorted_most_recent Alert.timestamp 100);
      [apply sort_desc_sorted| |]. }
  split.
  { intros a Ha%In_take. by apply (Permutation_in _ (sort_desc_perm _ _)) in Ha. }
  split; [intros a b Ha Hb Hnb; by eapply take_sort_desc_largest|].
  split; [rewrite length_take; lia|].
  split; [by rewrite length_take, sort_desc_length|].
  split.
  { exists (drop 50 (sort_desc QuarantinedFile.detected_at win)).
    split; [rewrite take_drop; apply sort_desc_perm|].
    intros q q' Hq Hq'.
    by eapply (take_sorted_most_recent QuarantinedFile.detected_at 50);
      [apply sort_desc_sorted| |]. }
  split.
  { intros q Hq%In_take. apply (Permutation_in _ (sort_desc_perm _ _)) in Hq.
    by apply Hwin. }
  split.
  { intros q q' Hq Hq' Hw Hnq'.
    eapply (take_sort_desc_largest QuarantinedFile.detected_at 50 win q q'); [done| |done].
    by apply Hwin. }
  split.
  { intros q Hd Hq%In_take. apply (Permutation_in _ (sort_desc_perm _ _)) in Hq.
    apply Hwin in Hq as [_ Hq]. rewrite Hd in Hq.
    unfold Py.timedelta_hours, Py.timedelta_seconds in Hq. lia. }
  intros q Hq Hd.
  assert (Hw : now env - Py.timedelta_hours 24 <= QuarantinedFile.detected_at q).
  { rewrite Hd. unfold Py.timedelta_hours, Py.timedelta_minutes. lia. }
  split; [unfold in_window, window_start; by apply Z.leb_le|].
  intros Hlen. rewrite take_ge by (rewrite sort_desc_length; exact Hlen).
  apply (Permutation_in _ (Permutation_sym (sort_desc_perm _ _))). by apply Hwin.
Qed.

(** Two stored alerts and two quarantined files, one of them too old: both
    alerts are drawn, newest first, and the recent file alone. *)
Lemma fetch_limits_and_window_witness :
  fetch_alerts SampleDraw.env_draw =
    Ok [SampleMerge.alert_at 3000 "second"; SampleMerge.alert_at 1000 "first"] /\
  length [SampleMerge.alert_at 3000 "second"; SampleMerge.alert_at 1000 "first"] =
    Nat.min 100 (length (alert_table SampleDraw.env_draw)) /\
  fetch_quarantine SampleDraw.env_draw (window_start SampleDraw.env_draw)
    = Ok [SampleWindow.recent] /\
  length [SampleWindow.recent] =
    Nat.min 50 (length (List.filter (in_window (window_start SampleDraw.env_draw))
                          (quarantine_table SampleDraw.env_draw))) /\
  ~ In SampleWindow.too_old [SampleWindow.recent] /\
  In SampleWindow.recent [SampleWindow.recent].
Proof.
  destruct (fetch_limits_and_window SampleDraw.env_draw
              [SampleMerge.alert_at 3000 "second"; SampleMerge.alert_at 1000 "first"]
              [SampleWindow.recent] eq_refl eq_refl)
    as (_ & Hna & _ & _ & _ & _ & Hnq & _ & _ & _ & Hout & Hin).
  split; [reflexivity|]. split; [exact Hna|].
  split; [reflexivity|]. split; [exact Hnq|]. split.
  - apply Hout. reflexivity.
  - apply (Hin SampleWindow.recent); [right; by left|reflexivity|].
    vm_compute. lia.
Defined.

(** ** The empty state *)

(** C8.  When a cycle fetches no alert and gets no quarantine row, the table
    ends up with exactly one row: the empty-state message in its first cell,
    under a span of one row by seven columns starting at that cell. *)
Theorem empty_cycle_shows_message env w :
  seven_columns w ->
  db_close env = Ok tt ->
  fetch_alerts env = Ok [] ->
  quarantine_rows env = [] ->
  (refresh env w).1 = Ok tt /\
  Qt.rowCount (table (refresh env w).2) = 1%nat /\
  Qt.columnCount (table (refresh env w).2) = 7%nat /\
  Qt.cells (table (refresh env w).2) =
    [[Some {| Qt.text := "No security events found."; Qt.align_center := false |};
      None; None; None; None; None; None]] /\
  Qt.spans (table (refresh env w).2) = [(0, 0, 1, 7)%nat].
Proof.
  intros H7 Hdb Hf Hq.
  assert (Hc : exists w1, collect_rows env w = (Ok [], w1) /\ seven_columns w1).
  { rewrite collect_rows_unfold, Hdb, Hf. cbn.
    unfold quarantine_rows in Hq.
    destruct (fetch_quarantine env _) as [[|q qs]|]; [|discriminate Hq|];
      eexists; (split; [reflexivity|exact H7]). }
  destruct Hc as (w1 & Hc & H7').
  split; [apply refresh_returns|].
  unfold refresh, try_except, refresh_body, bind. rewrite Hc.
  rewrite (update_table_empty env w1 H7'). cbn.
  repeat split. exact H7'.
Qed.

Lemma empty_cycle_shows_message_witness :
  Qt.cells (table (refresh SampleEmpty.env_empty Sample.world0).2) =
    [[Some {| Qt.text := "No security events found."; Qt.align_center := false |};
      None; None; None; None; None; None]] /\
  Qt.spans (table (refresh SampleEmpty.env_empty Sample.world0).2) = [(0, 0, 1, 7)%nat].
Proof.
  destruct (empty_cycle_shows_message SampleEmpty.env_empty Sample.world0
              eq_refl eq_refl eq_refl eq_refl) as (_ & _ & _ & Hcells & Hspans).
  split; [exact Hcells|exact Hspans].
Defined.

(** ** Quarantine rows *)

(** C9.  The row built from a fetched quarantine record is fixed by its
    detection time and its filename alone: its time is the detection time,
    its type ["Quarantine"], its severity ["high"], its details
    ["File quarantined: <filename>"], and its source, destination and process
    chain are empty; it is one of the quarantine rows of the cycle, and of
    the rows handed to the table once they are collected. *)
Theorem quarantine_row_shape env qs q :
  fetch_quarantine env (window_start env) = Ok qs ->
  In q qs ->
  quarantine_row q =
    {| Row.time := QuarantinedFile.detected_at q;
       Row.type := "Quarantine";
       Row.severity := "high";
       Row.src := "";
       Row.dst := "";
       Row.details := "File quarantined: " +:+ QuarantinedFile.filename q;
       Row.process_chain := "" |} /\
  (forall q', QuarantinedFile.detected_at q' = QuarantinedFile.detected_at q ->
              QuarantinedFile.filename q' = QuarantinedFile.filename q ->
              quarantine_row q' = quarantine_row q) /\
  In (quarantine_row q) (quarantine_rows env) /\
  (forall w rows w1,
     collect_rows env w = (Ok rows, w1) ->
     In (quarantine_row q) rows /\
     refresh_body env w = update_table env rows w1).
Proof.
  intros Hf Hin. split; [reflexivity|]. split.
  { intros q' Hd Hn. unfold quarantine_row. by rewrite Hd, Hn. }
  assert (Hq : In (quarantine_row q) (quarantine_rows env)).
  { unfold quarantine_rows. rewrite Hf. by apply in_map. }
  split; [exact Hq|].
  intros w rows w1 Hc.
  split; [by eapply collect_rows_has_quarantine|by apply refresh_body_hands_over].
Qed.

Lemma quarantine_row_shape_witness :
  quarantine_row SampleWindow.recent =
    {| Row.time := QuarantinedFile.detected_at SampleWindow.recent;
       Row.type := "Quarantine";
       Row.severity := "high";
       Row.src := "";
       Row.dst := "";
       Row.details := "File quarantined: new.bin";
       Row.process_chain := "" |} /\
  exists rows,
    (collect_rows SampleWindow.env_window Sample.world0).1 = Ok rows /\
    In (quarantine_row SampleWindow.recent) rows.
Proof.
  destruct (quarantine_row_shape SampleWindow.env_window [SampleWindow.recent]
              SampleWindow.recent eq_refl (or_introl eq_refl)) as (H1 & _ & _ & H).
  split; [exact H1|].
  eexists. split; [reflexivity|].
  eapply proj1. eapply (H Sample.world0). reflexivity.
Defined.

(** ** Missing alert fields *)





(** ** The column manager *)

Section ManagerFacts.
Context `{HeaderCodec}.

Lemma on_header_with_modes_twice ms ms' (g : Gui) :
  on_header (with_modes ms') (on_header (with_modes ms) g) =
  on_header (with_modes ms') g.
Proof. reflexivity. Qed.

(** Setting every section to Interactive touches the resize modes only. *)
Lemma interactive_each_modes (g : Gui) :
  exists ms, interactive_each (on_header (Header.setSectionResizeMode_all Qt.Interactive) g)
             = on_header (with_modes ms) g.
Proof.
  unfold interactive_each.
  generalize (seq 0 (Qt.columnCount
    (gtable (on_header (Header.setSectionResizeMode_all Qt.Interactive) g)))).
  intros l.
  assert (Hm : exists ms, on_header (Header.setSectionResizeMode_all Qt.Interactive) g
                          = on_header (with_modes ms) g) by (eexists; reflexivity).
  destruct Hm as [ms ->]. revert ms.
  induction l as [|i l IH]; intros ms; [by exists ms|].
  cbn [foldl].
  change (on_header (Header.setSectionResizeMode i Qt.Interactive)
            (on_header (with_modes ms) g))
    with (on_header (with_modes (<[i := Qt.Interactive]> ms)) g).
  apply IH.
Qed.

(** Running the connected slots writes the settings and nothing else: each
    connected key now holds the saved state of the header. *)
Lemma emit_sectionResized_spec (g : Gui) :
  gtable (emit_sectionResized g) = gtable g /\
  (forall s, In s (Qt.resized_slots (gtable g)) ->
     settings (emit_sectionResized g) !! Qt.slot_key s =
       Some (saveState (Qt.hstate (gtable g)))) /\
  (forall k, (forall s, In s (Qt.resized_slots (gtable g)) -> Qt.slot_key s <> k) ->
     settings (emit_sectionResized g) !! k = settings g !! k).
Proof.
  unfold emit_sectionResized.
  induction (Qt.resized_slots (gtable g)) as [|s l IH] using rev_ind.
  - repeat split; done.
  - rewrite foldl_app. cbn [foldl].
    destruct IH as (Ht & Hs & Hk).
    set (g' := foldl _ g l) in *.
    split; [exact Ht|]. split.
    + intros s' Hin. unfold save_under. cbn. rewrite Ht.
      destruct (decide (Qt.slot_key s = Qt.slot_key s')) as [->|Hne].
      * by rewrite lookup_insert_eq.
      * rewrite lookup_insert_ne by done.
        apply in_app_or in Hin as [Hin|[->|[]]]; [by apply Hs|done].
    + intros k Hall. unfold save_under. cbn.
      rewrite lookup_insert_ne.
      * apply Hk. intros s' Hin. apply Hall, in_or_app. by left.
      * apply Hall, in_or_app. right. by left.
Qed.

(** A resize to a non-negative width sets that width (when the section
    exists) and changes no other part of the header. *)
Lemma resizeSection_header i width (g : Gui) :
  0 <= width ->
  Qt.hstate (gtable (resizeSection i width g)) =
    Header.set_size i width (Qt.hstate (gtable g)) /\
  Qt.resized_slots (gtable (resizeSection i width g)) = Qt.resized_slots (gtable g) /\
  Qt.viewport_width (gtable (resizeSection i width g)) = Qt.viewport_width (gtable g).
Proof.
  intros Hw. unfold resizeSection.
  destruct (Qt.sizes (Qt.hstate (gtable g)) !! i) as [old|] eqn:Hi.
  - destruct (Z.ltb_spec width 0) as [?|_]; [lia|]. cbn [orb].
    destruct (Z.eqb_spec old width) as [->|Hne].
    + split; [|done]. unfold Header.set_size. rewrite list_insert_id by done.
      by destruct (Qt.hstate (gtable g)).
    + by rewrite (proj1 (emit_sectionResized_spec _)).
  - split; [|done]. unfold Header.set_size.
    rewrite list_insert_ge by (by apply lookup_ge_None).
    by destruct (Qt.hstate (gtable g)).
Qed.

(** A resize that changes the width of an existing section. *)
Lemma resizeSection_changed i width old (g : Gui) :
  Qt.sizes (Qt.hstate (gtable g)) !! i = Some old ->
  0 <= width -> width <> old ->
  resizeSection i width g =
    emit_sectionResized (on_header (Header.set_size i width) g).
Proof.
  intros Hi Hw Hne. unfold resizeSection. rewrite Hi.
  destruct (Z.ltb_spec width 0); [lia|].
  destruct (Z.eqb_spec old width); [congruence|]. reflexivity.
Qed.

(** Writing [x] at positions [0 .. n-1]. *)
Lemma foldl_insert_prefix {A} (x : A) n (l : list A) :
  (n <= length l)%nat ->
  foldl (fun l i => <[i := x]> l) l (seq 0 n) = replicate n x ++ drop n l.
Proof.
  induction n as [|n IH]; intros Hn; [by rewrite drop_0|].
  rewrite seq_S, foldl_app. cbn [foldl]. rewrite IH by lia. cbn [Nat.add].
  destruct (drop n l) as [|y l'] eqn:Hd.
  { apply (f_equal length) in Hd. rewrite length_drop in Hd. cbn in Hd. lia. }
  rewrite insert_app_r_alt by (rewrite length_replicate; lia).
  rewrite length_replicate, Nat.sub_diag.
  rewrite replicate_S_end, <- app_assoc. cbn. do 2 f_equal.
  replace (S n) with (n + 1)%nat by lia.
  by rewrite <- (drop_drop l 1 n), Hd.
Qed.

(** The loop of [handle_resize]. *)
Lemma distribute_header width n : forall g : Gui,
  0 <= width ->
  let g' := foldl (fun g i => setColumnWidth i width g) g (seq 0 n) in
  Qt.sizes (Qt.hstate (gtable g')) =
    foldl (fun l i => <[i := width]> l) (Qt.sizes (Qt.hstate (gtable g))) (seq 0 n) /\
  Qt.stretch_last (Qt.hstate (gtable g')) = Qt.stretch_last (Qt.hstate (gtable g)) /\
  Qt.visual_order (Qt.hstate (gtable g')) = Qt.visual_order (Qt.hstate (gtable g)).
Proof.
  intros g Hw. cbn zeta.
  induction n as [|n IH]; [done|].
  rewrite seq_S, !foldl_app. cbn [foldl Nat.add].
  unfold setColumnWidth at 1 3 5.
  destruct (resizeSection_header n width
              (foldl (fun g i => setColumnWidth i width g) g (seq 0 n)) Hw) as (-> & _).
  destruct IH as (IH1 & IH2 & IH3). cbn. by rewrite IH1, IH2, IH3.
Qed.

(** [restore_state] when no usable state is stored under the key. *)
Lemma restore_state_none m (g : Gui) :
  settings g !! settings_key m = None ->
  exists ms slots,
    restore_state m g =
      (set_default m false,
       on_header (with_modes ms)
         (set_gtable g (Qt.with_slots (gtable g) (slots ++ [slot m])))).
Proof.
  intros Hn. unfold restore_state. rewrite Hn.
  match goal with |- context [interactive_each (on_header _ ?G)] =>
    destruct (interactive_each_modes G) as [ms ->] end.
  exists ms. unfold connect. cbn.
  destruct (disconnect _ _) as [l|]; eexists; reflexivity.
Qed.

(** [restore_state] with a saved state under the key. *)
Lemma restore_state_some m (g : Gui) st :
  settings g !! settings_key m = Some st ->
  blob_truthy st = true ->
  exists ms slots,
    restore_state m g =
      (set_default m true,
       on_header (with_modes ms)
         (set_gtable g
            (Qt.with_slots
               (Qt.with_hstate (gtable g) (restoreState st (Qt.hstate (gtable g))))
               (slots ++ [slot m])))).
Proof.
  intros Hs Ht. unfold restore_state. rewrite Hs, Ht.
  match goal with |- context [interactive_each (on_header _ ?G)] =>
    destruct (interactive_each_modes G) as [ms ->] end.
  exists ms. unfold connect. cbn.
  destruct (disconnect _ _) as [l|]; eexists; reflexivity.
Qed.

(** What [setup] does before it calls [restore_state]. *)
Lemma setup_prefix m (g : Gui) :
  exists ms,
    setup m g =
      restore_state m
        (on_header (with_modes ms)
           (on_header (Header.setStretchLastSection true)
              (on_header (Header.setSectionsMovable true) g))).
Proof.
  unfold setup.
  match goal with |- context [interactive_each (on_header _ ?G)] =>
    destruct (interactive_each_modes G) as [ms ->] end.
  by exists ms.
Qed.

(** [setup] on a first run: nothing saved under the key. *)
Lemma setup_fresh m (g : Gui) :
  settings g !! settings_key m = None ->
  (setup m g).1 = set_default m false /\
  Qt.sizes (Qt.hstate (gtable (setup m g).2)) = Qt.sizes (Qt.hstate (gtable g)) /\
  Qt.stretch_last (Qt.hstate (gtable (setup m g).2)) = true /\
  Qt.viewport_width (gtable (setup m g).2) = Qt.viewport_width (gtable g) /\
  settings (setup m g).2 = settings g /\
  In (slot m) (Qt.resized_slots (gtable (setup m g).2)).
Proof.
  intros Hn. destruct (setup_prefix m g) as [ms0 ->].
  match goal with |- context [restore_state m ?G] =>
    destruct (restore_state_none m G Hn) as (ms & slots & ->) end.
  cbn. repeat split. apply in_or_app. right. by left.
Qed.

(** [setup] when a state is saved under the key: the header is what
    [restoreState] makes of it (the resize modes apart), the header it was
    applied to having the widths the table had. *)
Lemma setup_restored m (g : Gui) st :
  settings g !! settings_key m = Some st ->
  blob_truthy st = true ->
  (setup m g).1 = set_default m true /\
  (exists ms h0,
     Qt.sizes h0 = Qt.sizes (Qt.hstate (gtable g)) /\
     Qt.hstate (gtable (setup m g).2) = with_modes ms (restoreState st h0)) /\
  settings (setup m g).2 = settings g /\
  In (slot m) (Qt.resized_slots (gtable (setup m g).2)).
Proof.
  intros Hs Ht. destruct (setup_prefix m g) as [ms0 ->].
  match goal with |- context [restore_state m ?G] =>
    destruct (restore_state_some m G st Hs Ht) as (ms & slots & ->) end.
  cbn. split; [done|]. split; [|split; [done|apply in_or_app; right; by left]].
  eexists ms, _. split; [|reflexivity]. reflexivity.
Qed.

(** Once the default is set, [handle_resize] does nothing. *)
Lemma handle_resize_established m (g : Gui) :
  default_set m = true -> handle_resize m g = (m, g).
Proof. intros Hd. unfold handle_resize. by rewrite Hd. Qed.

(** C4.  After [setup] with nothing saved under the key the default is still
    to be set and the last section is set to stretch.  A resize event that
    then finds the viewport 900 wide on the seven columns, the last one
    stretching, makes [handle_resize] call [setColumnWidth(i, 128)], with
    128 = 900 // 7, for the columns 0 to 5 and for no other: the first six
    columns are 128 wide, and the stretch column is assigned no width.  From
    then on [handle_resize] is the identity: it assigns nothing. *)
Theorem first_resize_distributes_once m (g : Gui) :
  settings g !! settings_key m = None ->
  let m1 := (setup m g).1 in
  default_set m1 = false /\
  Qt.stretch_last (Qt.hstate (gtable (setup m g).2)) = true /\
  900 / 7 = 128 /\
  forall g1 : Gui,
    Qt.viewport_width (gtable g1) = 900 ->
    Qt.columnCount (gtable g1) = 7%nat ->
    Qt.stretch_last (Qt.hstate (gtable g1)) = true ->
    let m2 := (handle_resize m1 g1).1 in
    let g2 := (handle_resize m1 g1).2 in
    g2 = foldl (fun g i => setColumnWidth i 128 g) g1 [0; 1; 2; 3; 4; 5]%nat /\
    take 6 (Qt.sizes (Qt.hstate (gtable g2))) = replicate 6 128 /\
    default_set m2 = true /\
    (forall g' : Gui, handle_resize m2 g' = (m2, g')).
Proof.
  intros Hnone. cbn zeta.
  destruct (setup_fresh m g Hnone) as (Hm & _ & Hst & _ & _ & _).
  destruct (setup m g) as [m1 g0]. cbn [fst snd] in *. subst m1.
  split; [done|]. split; [done|]. split; [reflexivity|].
  intros g1 Hv H7 Hs1.
  assert (Hh : handle_resize (set_default m false) g1 =
               (set_default (set_default m false) true,
                foldl (fun g i => setColumnWidth i 128 g) g1 (seq 0 6))).
  { unfold handle_resize. cbn [default_set set_default negb].
    rewrite Hv. change (300 <? 900) with true. cbn iota. by rewrite H7, Hs1. }
  rewrite Hh. cbn [fst snd].
  split; [reflexivity|]. split.
  { destruct (distribute_header 128 6 g1) as (Hs & _); [lia|].
    rewrite Hs. unfold Qt.columnCount in H7.
    rewrite foldl_insert_prefix by lia.
    rewrite take_app_length' by (by rewrite length_replicate). done. }
  split; [done|].
  intros g'. by apply handle_resize_established.
Qed.

End ManagerFacts.

Lemma first_resize_distributes_once_witness :
  default_set (setup SampleLayout.manager SampleLayout.first_session).1 = false /\
  take 6 (Qt.sizes (Qt.hstate (gtable
    (handle_resize (setup SampleLayout.manager SampleLayout.first_session).1
       SampleResize.shown).2)))
  = [128; 128; 128; 128; 128; 128] /\
  default_set
    (handle_resize (setup SampleLayout.manager SampleLayout.first_session).1
       SampleResize.shown).1 = true.
Proof.
  pose proof (first_resize_distributes_once SampleLayout.manager
                SampleLayout.first_session eq_refl) as Hx.
  cbn zeta in Hx. destruct Hx as (Hd & _ & _ & Hall).
  destruct (Hall SampleResize.shown eq_refl eq_refl eq_refl) as (_ & Hs & Hd2 & _).
  split; [exact Hd|]. split; [exact Hs|exact Hd2].
Defined.

(** A viewport of 300 or less is not a valid width yet: nothing is set and the
    default stays pending. *)
Example handle_resize_narrow_viewport :
  let m := (setup SampleLayout.manager SampleLayout.first_session).1 in
  let g := (setup SampleLayout.manager SampleLayout.first_session).2 in
  Qt.viewport_width (gtable g) = 0 /\ handle_resize m g = (m, g).
Proof. split; vm_compute; reflexivity. Qed.

(** ** Saving and restoring the layout *)

(** The snapshot codec keeps Qt's promises. *)
Lemma snapshot_codec_laws : @HeaderCodecLaws SampleLayout.snapshot_codec.
Proof. split; reflexivity. Qed.

Lemma later_session_settings s : settings (SampleLayout.later_session s) = s.
Proof. reflexivity. Qed.

Section RoundTrip.
Context `{HeaderCodec}.

(** After [restore_state], hence after [setup], the manager's [save_state]
    is connected to [sectionResized]. *)
Lemma restore_state_connected m (g : Gui) :
  In (slot m) (Qt.resized_slots (gtable (restore_state m g).2)).
Proof.
  unfold restore_state.
  destruct (settings g !! settings_key m) as [st|]; [destruct (blob_truthy st)|];
    match goal with |- context [interactive_each (on_header _ ?G)] =>
      destruct (interactive_each_modes G) as [ms ->] end;
    cbn; unfold connect; apply in_or_app; right; by left.
Qed.

Lemma setup_connected m (g : Gui) :
  In (slot m) (Qt.resized_slots (gtable (setup m g).2)).
Proof. destruct (setup_prefix m g) as [ms ->]. apply restore_state_connected. Qed.

(** Reconnecting never piles up connections: with at most one connection of
    the manager's slot before [restore_state], there is exactly one after. *)
Lemma disconnect_connect_once s l :
  (length (List.filter (slot_eqb s) l) <= 1)%nat ->
  length (List.filter (slot_eqb s)
            (connect s match disconnect s l with Ok l' => l' | Raise _ => l end)) = 1%nat.
Proof.
  assert (Hss : slot_eqb s s = true).
  { unfold slot_eqb. by rewrite Nat.eqb_refl, String.eqb_refl. }
  unfold connect. induction l as [|s' l IH]; intros Hle; cbn.
  - by rewrite Hss.
  - cbn in Hle. destruct (slot_eqb s s') eqn:Heq.
    + cbn in Hle. rewrite List.filter_app. cbn. rewrite Hss, length_app. cbn.
      destruct (List.filter (slot_eqb s) l); cbn in *; lia.
    + specialize (IH Hle). destruct (disconnect s l) as [l'|]; cbn; by rewrite Heq.
Qed.

Context `{!HeaderCodecLaws}.

(** C5.  Once [setup] has run, a user-driven resize that changes a column's
    width has, by the time it returns, stored the saved state of the whole
    header (with the new width) under the manager's key; calling
    [save_state] directly stores it too; and [setup] of a manager with the
    same key, over the stored settings and a table with as many columns,
    puts back exactly the stored widths and order, after which resize events
    no longer change them. *)
Theorem resize_saved_then_restored m (g : Gui) i old width :
  Qt.sizes (Qt.hstate (gtable (setup m g).2)) !! i = Some old ->
  0 <= width ->
  width <> old ->
  let g2 := user_resize i width (setup m g).2 in
  Qt.sizes (Qt.hstate (gtable g2)) !! i = Some width /\
  settings g2 !! settings_key m = Some (saveState (Qt.hstate (gtable g2))) /\
  (forall g0 : Gui, settings (save_state m g0) !! settings_key m =
                    Some (saveState (Qt.hstate (gtable g0)))) /\
  (forall m' (g' : Gui),
     settings_key m' = settings_key m ->
     settings g' = settings g2 ->
     Qt.columnCount (gtable g') = Qt.columnCount (gtable g2) ->
     Qt.sizes (Qt.hstate (gtable (setup m' g').2)) = Qt.sizes (Qt.hstate (gtable g2)) /\
     Qt.visual_order (Qt.hstate (gtable (setup m' g').2)) =
       Qt.visual_order (Qt.hstate (gtable g2)) /\
     default_set (setup m' g').1 = true /\
     forall g'' : Gui, handle_resize (setup m' g').1 g'' = ((setup m' g').1, g'')).
Proof.
  intros Hi Hw Hne. cbn zeta. unfold user_resize.
  rewrite (resizeSection_changed i width old _ Hi Hw Hne).
  set (g1 := (setup m g).2) in *.
  destruct (emit_sectionResized_spec (on_header (Header.set_size i width) g1))
    as (Ht & Hs & _).
  set (g2 := emit_sectionResized (on_header (Header.set_size i width) g1)) in *.
  assert (Hsaved : settings g2 !! settings_key m =
                   Some (saveState (Qt.hstate (gtable g2)))).
  { rewrite Ht. apply (Hs (slot m)). apply setup_connected. }
  split.
  { rewrite Ht. cbn. apply list_lookup_insert_eq. by eapply lookup_lt_Some. }
  split; [exact Hsaved|].
  split; [intros g0; unfold save_state, save_under; cbn; apply lookup_insert_eq|].
  intros m' g' Hkey Hset Hcols.
  rewrite <- Hset, <- Hkey in Hsaved.
  destruct (setup_restored m' g' _ Hsaved (save_truthy _))
    as (Hm & (ms & h0 & Hh0 & Hh) & _).
  rewrite Hm, Hh, restore_save.
  - split; [done|]. split; [done|]. split; [done|].
    intros g''. by apply handle_resize_established.
  - rewrite Hh0. exact Hcols.
Qed.

End RoundTrip.

Lemma resize_saved_then_restored_witness :
  let g2 := user_resize 2 250 (setup SampleLayout.manager SampleLayout.first_session).2 in
  Qt.sizes (Qt.hstate (gtable g2)) = [100; 100; 250; 100; 100; 100; 100] /\
  Qt.sizes (Qt.hstate (gtable
     (setup SampleLayout.manager (SampleLayout.later_session (settings g2))).2))
  = [100; 100; 250; 100; 100; 100; 100].
Proof.
  cbn zeta.
  assert (H1 : Qt.sizes (Qt.hstate (gtable
                 (setup SampleLayout.manager SampleLayout.first_session).2))
                 !! 2%nat = Some 100) by (vm_compute; reflexivity).
  assert (H2 : 0 <= 250) by (clear; lia).
  assert (H3 : 250 <> 100) by (clear; lia).
  pose proof (@resize_saved_then_restored SampleLayout.snapshot_codec
                snapshot_codec_laws SampleLayout.manager SampleLayout.first_session
                2 100 250 H1 H2 H3) as Hall.
  cbn zeta in Hall. destruct Hall as (_ & _ & _ & Hback).
  split; [vm_compute; reflexivity|].
  assert (H4 : Qt.columnCount
                 (gtable (SampleLayout.later_session
                    (settings (user_resize 2 250
                       (setup SampleLayout.manager SampleLayout.first_session).2)))) =
               Qt.columnCount
                 (gtable (user_resize 2 250
                    (setup SampleLayout.manager SampleLayout.first_session).2)))
    by (vm_compute; reflexivity).
  destruct (Hback SampleLayout.manager _ eq_refl (later_session_settings _) H4)
    as (Hsz & _).
  rewrite Hsz. vm_compute. reflexivity.
Defined.

(** * Further properties of the refresh cycle *)

(** ** What [refresh] logs *)

Lemma quiet_bind {A B} (m : M A) (k : A -> M B) :
  quiet m -> (forall a, quiet (k a)) -> quiet (bind m k).
Proof.
  intros Hm Hk w. unfold bind. specialize (Hm w).
  destruct (m w) as [[a|e] w1]; [|exact Hm].
  cbn in Hm. rewrite <- Hm. apply Hk.
Qed.

Lemma quiet_on_table f : quiet (on_table f).
Proof. by intros w. Qed.

Lemma quiet_for_each {A} (body : A -> M unit) l :
  (forall x, quiet (body x)) -> quiet (for_each body l).
Proof.
  intros Hb. induction l as [|x l IH]; [by intros w|].
  cbn. apply quiet_bind; [apply Hb|]. intros _. exact IH.
Qed.

Lemma quiet_render_row env ir : quiet (render_row env ir).
Proof.
  destruct ir as [i r]. unfold render_row.
  apply quiet_bind; [by intros w|]. intros lt.
  repeat (apply quiet_bind; [apply quiet_on_table|]; intros _).
  apply quiet_on_table.
Qed.

Lemma quiet_update_table env rows : quiet (update_table env rows).
Proof.
  unfold update_table.
  apply quiet_bind; [apply quiet_on_table|]. intros _.
  destruct rows as [|r rows].
  - repeat (apply quiet_bind; [apply quiet_on_table|]; intros _).
    apply quiet_on_table.
  - apply quiet_bind; [apply quiet_on_table|]. intros _.
    apply quiet_for_each, quiet_render_row.
Qed.

(** X2.  A cycle only appends to the log, at most three records (the alert
    count, the quarantine failure, the error), and it appends an error record
    exactly when the [try] block was left by an exception. *)
Theorem refresh_log_discipline env w :
  exists new,
    log (refresh env w).2 = log w ++ new /\
    (length new <= 3)%nat /\
    ((exists msg, In (ERROR, msg) new) <->
     (exists e, (refresh_body env w).1 = Raise e)).
Proof.
  unfold refresh, try_except, refresh_body, bind.
  rewrite collect_rows_unfold.
  destruct (db_close env) as [[]|e0].
  2:{ exists [(ERROR, error_message e0)]. cbn. split; [done|]. split; [lia|].
      split; [by exists e0|]. intros _. eexists. by left. }
  destruct (fetch_alerts env) as [alerts|e0].
  2:{ exists [(ERROR, error_message e0)]. cbn. split; [done|]. split; [lia|].
      split; [by exists e0|]. intros _. eexists. by left. }
  cbn zeta.
  destruct (rmap (alert_row env) alerts) as [arows|e0].
  2:{ exists [(INFO, found_message alerts); (ERROR, error_message e0)]. cbn.
      split; [by rewrite <- app_assoc|]. split; [lia|].
      split; [by exists e0|]. intros _. eexists. right. by left. }
  destruct (fetch_quarantine env (window_start env)) as [qs|eq].
  - match goal with |- context [update_table env ?R ?W] =>
      pose proof (quiet_update_table env R W) as Hq;
      destruct (update_table env R W) as [[[]|e0] w2] end; cbn in Hq |- *.
    + exists [(INFO, found_message alerts)]. rewrite Hq. cbn.
      split; [done|]. split; [lia|].
      split; [intros (msg & [[=]|[]])|intros [e [=]]].
    + exists [(INFO, found_message alerts); (ERROR, error_message e0)].
      rewrite Hq. cbn. split; [by rewrite <- app_assoc|]. split; [lia|].
      split; [by exists e0|]. intros _. eexists. right. by left.
  - match goal with |- context [update_table env ?R ?W] =>
      pose proof (quiet_update_table env R W) as Hq;
      destruct (update_table env R W) as [[[]|e0] w2] end; cbn in Hq |- *.
    + exists [(INFO, found_message alerts); (DEBUG, quarantine_message eq)].
      rewrite Hq. cbn. split; [by rewrite <- app_assoc|]. split; [lia|].
      split; [intros (msg & [[=]|[[=]|[]]])|intros [e [=]]].
    + exists [(INFO, found_message alerts); (DEBUG, quarantine_message eq);
              (ERROR, error_message e0)].
      rewrite Hq. cbn. split; [by rewrite <- !app_assoc|]. split; [lia|].
      split; [by exists e0|]. intros _. eexists. right. right. by left.
Qed.

(** ** How many rows a completed cycle shows *)

Lemma rmap_length {A B} (f : A -> result B) l ys :
  rmap f l = Ok ys -> length ys = length l.
Proof. intros Hr%rmap_Forall2. symmetry. by eapply Forall2_length. Qed.

Lemma zip_with_row_cells_widths lts rows :
  Forall (fun row => length row = 7%nat) (zip_with row_cells lts rows).
Proof.
  revert rows. induction lts as [|lt lts IH]; intros [|r rows]; cbn;
    constructor; auto.
Qed.

Lemma quarantine_rows_length env : (length (quarantine_rows env) <= 50)%nat.
Proof.
  unfold quarantine_rows, fetch_quarantine.
  destruct (quarantine_fault env); cbn; [lia|].
  rewrite length_map, length_take. lia.
Qed.

Lemma fetch_alerts_length env alerts :
  fetch_alerts env = Ok alerts -> (length alerts <= 100)%nat.
Proof.
  unfold fetch_alerts. destruct (alert_fault env); [done|].
  intros [= <-]. rewrite length_take. lia.
Qed.

(** X3.  After a cycle that runs to its end the table has one row per fetched
    alert and per fetched quarantine record, or the single message row when
    there is none: never fewer than 1 row, never more than 150, and every row
    is seven cells wide. *)
Theorem completed_cycle_row_count env w w' alerts :
  seven_columns w ->
  refresh_body env w = (Ok tt, w') ->
  fetch_alerts env = Ok alerts ->
  Qt.rowCount (table w') =
    Nat.max 1 (length alerts + length (quarantine_rows env)) /\
  (1 <= Qt.rowCount (table w') <= 150)%nat /\
  Forall (fun row => length row = 7%nat) (Qt.cells (table w')).
Proof.
  intros H7 Hb Hf.
  destruct (refresh_body_ok env w w' H7 Hb) as (rows & w1 & Hc & Hshow).
  destruct (collect_rows_ok env w rows w1 Hc) as (alerts' & arows & _ & Hf' & Ha & Hrows).
  rewrite Hf in Hf'. injection Hf' as <-.
  pose proof (rmap_length _ _ _ Ha) as Hla.
  pose proof (fetch_alerts_length env alerts Hf) as H100.
  pose proof (quarantine_rows_length env) as H50.
  assert (Hlen : length rows = (length alerts + length (quarantine_rows env))%nat).
  { rewrite Hrows. unfold sort_rows. by rewrite sort_desc_length, length_app, Hla. }
  unfold Qt.rowCount. destruct rows as [|r rows].
  - destruct Hshow as [-> _]. cbn in Hlen. rewrite <- Hlen. cbn.
    split; [done|]. split; [lia|]. by repeat constructor.
  - destruct Hshow as (lts & Hl & -> & _).
    rewrite length_zip_with, (rmap_length _ _ _ Hl), Nat.min_id, Hlen.
    cbn in Hlen. split; [lia|]. split; [lia|]. apply zip_with_row_cells_widths.
Qed.

Lemma completed_cycle_row_count_witness :
  Qt.rowCount (table (refresh_body SampleMerge.env_mixed Sample.world0).2) = 4%nat.
Proof.
  assert (Hb : refresh_body SampleMerge.env_mixed Sample.world0 =
               (Ok tt, (refresh_body SampleMerge.env_mixed Sample.world0).2))
    by (vm_compute; reflexivity).
  assert (Hf : fetch_alerts SampleMerge.env_mixed =
               Ok [SampleMerge.alert_at 3000 "second"; SampleMerge.alert_at 1000 "first"])
    by (vm_compute; reflexivity).
  destruct (completed_cycle_row_count SampleMerge.env_mixed Sample.world0 _ _
              eq_refl Hb Hf) as (Hn & _).
  rewrite Hn. vm_compute. reflexivity.
Defined.

(** ** A cycle aborted while it reads the alerts *)

Lemma rmap_raise {A B} (f : A -> result B) l x e :
  In x l -> f x = Raise e -> exists e', rmap f l = Raise e'.
Proof.
  induction l as [|y l IH]; [done|]. intros [->|Hin] Hx; cbn.
  - rewrite Hx. by eexists.
  - destruct (f y); [|by eexists]. cbn.
    destruct (IH Hin Hx) as [e' ->]. by eexists.
Qed.

(** X4.  Reading the connection of an alert is not protected the way the
    ancestry lookup is: when it raises for any one of the fetched alerts, no
    row of the cycle reaches the table.  The table stays as it was, and the
    log gets the alert count followed by one error record. *)
Theorem connection_failure_aborts_cycle env w alerts a e :
  db_close env = Ok tt ->
  fetch_alerts env = Ok alerts ->
  In a alerts ->
  Alert.connection a = Raise e ->
  exists e',
    refresh env w =
      (Ok tt, logged ERROR (error_message e') (logged INFO (found_message alerts) w)) /\
    table (refresh env w).2 = table w.
Proof.
  intros Hdb Hf Hin Hc.
  assert (Ha : alert_row env a = Raise e) by (unfold alert_row; by rewrite Hc).
  destruct (rmap_raise _ _ _ _ Hin Ha) as [e' He'].
  exists e'.
  assert (Hr : refresh env w =
    (Ok tt, logged ERROR (error_message e') (logged INFO (found_message alerts) w))).
  { unfold refresh, try_except, refresh_body, bind.
    by rewrite collect_rows_unfold, Hdb, Hf, He'. }
  by rewrite Hr.
Qed.

(** ** A cycle aborted while the table is rebuilt *)

Lemma for_each_app {A} (body : A -> M unit) l1 l2 w :
  for_each body (l1 ++ l2) w =
    match for_each body l1 w with
    | (Ok _, w') => for_each body l2 w'
    | (Raise e, w') => (Raise e, w')
    end.
Proof.
  revert w. induction l1 as [|x l1 IH]; intros w; [reflexivity|].
  cbn. unfold bind. destruct (body x w) as [[[]|e] w1]; [apply IH|reflexivity].
Qed.

Lemma enumerate_from_app {A} i (l1 l2 : list A) :
  enumerate_from i (l1 ++ l2) =
  enumerate_from i l1 ++ enumerate_from (i + length l1) l2.
Proof.
  revert i. induction l1 as [|x l1 IH]; intros i; cbn.
  - by rewrite Nat.add_0_r.
  - rewrite IH. do 3 f_equal. lia.
Qed.

(** The rendering loop on rows whose times convert, with further rows of the
    grid below them. *)
Lemma render_rows_above env rows : forall lts w done below,
  Qt.cells (table w) = done ++ replicate (length rows) empty_row ++ below ->
  local_times env rows = Ok lts ->
  for_each (render_row env) (enumerate_from (length done) rows) w =
    (Ok tt, regrid w (done ++ zip_with row_cells lts rows ++ below)
              (Qt.spans (table w))).
Proof.
  induction rows as [|r rows IH]; intros lts w done below Hc Hl.
  - cbn in *. injection Hl as <-. cbn.
    unfold ret, regrid, set_table, Qt.with_cells. rewrite <- Hc.
    by destruct w as [[] ?].
  - cbn [local_times rmap] in Hl.
    destruct (localtime_strftime env (Row.time r)) as [lt|] eqn:Hlt; [|done].
    cbn [rbind] in Hl. fold (local_times env rows) in Hl.
    destruct (local_times env rows) as [lts'|] eqn:Hl'; [|done].
    injection Hl as <-.
    cbn [enumerate_from for_each]. unfold bind at 1.
    change (Qt.cells (table w) =
            done ++ replicate 7 None :: (replicate (length rows) empty_row ++ below))
      in Hc.
    rewrite (render_row_ok env _ r lt w done _ Hc eq_refl Hlt).
    specialize (IH lts'
      (regrid w (done ++ row_cells lt r :: (replicate (length rows) empty_row ++ below))
              (Qt.spans (table w)))
      (done ++ [row_cells lt r]) below).
    rewrite length_app in IH. cbn [length] in IH.
    replace (length done + 1)%nat with (S (length done)) in IH by lia.
    rewrite IH; [| cbn; by rewrite <- app_assoc | reflexivity].
    cbn. rewrite <- app_assoc. reflexivity.
Qed.

(** The table is cleared before the times are converted, one row at a time:
    when the conversion raises at some row, the rows before it have been
    written, that row and the rows after it are still empty. *)
Lemma update_table_stops env done r rest lts e w :
  seven_columns w ->
  local_times env done = Ok lts ->
  localtime_strftime env (Row.time r) = Raise e ->
  update_table env (done ++ r :: rest) w =
    (Raise e,
     regrid w (zip_with row_cells lts done ++ replicate (S (length rest)) empty_row) []).
Proof.
  intros H7 Hl He. unfold seven_columns in H7.
  assert (Hne : exists r0 rows0, done ++ r :: rest = r0 :: rows0).
  { destruct done; cbn; eauto. }
  destruct Hne as (r0 & rows0 & Hne).
  unfold update_table. rewrite Hne. rewrite <- Hne. clear r0 rows0 Hne.
  unfold bind at 1, on_table at 1. unfold bind at 1, on_table at 1.
  rewrite setRowCount_0. cbn [table set_table]. rewrite setRowCount_fresh, H7.
  unfold enumerate. rewrite enumerate_from_app, for_each_app.
  rewrite length_app. cbn [length].
  rewrite (render_rows_above env done lts _ [] (replicate (S (length rest)) empty_row)).
  - cbn [enumerate_from for_each]. unfold bind at 1, render_row at 1, bind at 1, lift.
    rewrite He. reflexivity.
  - cbn [table set_table Qt.cells Qt.with_cells app].
    rewrite replicate_add. reflexivity.
  - exact Hl.
Qed.

(** X5.  The table is cleared and resized before the times are converted, one
    row at a time.  When the conversion raises at some row, those of the rows
    before it having succeeded, that exception leaves [update_table], which
    logs nothing itself, and [refresh] logs it as an error and returns; by
    then the table has one row for each collected row, seven cells wide, and
    no span, whatever it showed before. *)
Theorem rebuild_stops_at_failed_conversion env done r rest lts e w :
  seven_columns w ->
  local_times env done = Ok lts ->
  localtime_strftime env (Row.time r) = Raise e ->
  let w' := (update_table env (done ++ r :: rest) w).2 in
  (update_table env (done ++ r :: rest) w).1 = Raise e /\
  Qt.rowCount (table w') = length (done ++ r :: rest) /\
  Forall (fun row => length row = 7%nat) (Qt.cells (table w')) /\
  Qt.spans (table w') = [] /\
  log w' = log w /\
  (forall w0,
     collect_rows env w0 = (Ok (done ++ r :: rest), w) ->
     refresh env w0 = (Ok tt, logged ERROR (error_message e) w')).
Proof.
  intros H7 Hl He. cbn zeta.
  pose proof (update_table_stops env done r rest lts e w H7 Hl He) as Hstop.
  assert (Hrows : length (zip_with row_cells lts done ++
                          replicate (S (length rest)) empty_row) =
                  length (done ++ r :: rest)).
  { rewrite !length_app, length_zip_with, (rmap_length _ _ _ Hl), Nat.min_id.
    by rewrite length_replicate. }
  split; [by rewrite Hstop|]. split; [rewrite Hstop; exact Hrows|]. split.
  { rewrite Hstop. cbn [snd regrid set_table table Qt.with_cells Qt.cells].
    apply Forall_app. split; [apply zip_with_row_cells_widths|].
    by apply Forall_replicate. }
  split; [by rewrite Hstop|]. split; [by rewrite Hstop|].
  intros w0 Hc. unfold refresh, try_except.
  by rewrite (refresh_body_hands_over env w0 _ w Hc), Hstop.
Qed.

(** ** A failing quarantine query *)

Lemma log_blind_bind {A B} (m : M A) (k : A -> M B) :
  log_blind m -> (forall a, log_blind (k a)) -> log_blind (bind m k).
Proof.
  intros Hm Hk lvl msg w. unfold bind. rewrite Hm.
  destruct (m w) as [[a|e] w1]; cbn; [apply Hk|reflexivity].
Qed.

Lemma log_blind_on_table f : log_blind (on_table f).
Proof. by intros lvl msg w. Qed.

Lemma log_blind_for_each {A} (body : A -> M unit) l :
  (forall x, log_blind (body x)) -> log_blind (for_each body l).
Proof.
  intros Hb. induction l as [|x l IH]; [by intros lvl msg w|].
  cbn. apply log_blind_bind; [apply Hb|]. intros _. exact IH.
Qed.

Lemma log_blind_render_row env ir : log_blind (render_row env ir).
Proof.
  destruct ir as [i r]. unfold render_row.
  apply log_blind_bind; [by intros lvl msg w|]. intros lt.
  repeat (apply log_blind_bind; [apply log_blind_on_table|]; intros _).
  apply log_blind_on_table.
Qed.

Lemma log_blind_update_table env rows : log_blind (update_table env rows).
Proof.
  unfold update_table.
  apply log_blind_bind; [apply log_blind_on_table|]. intros _.
  destruct rows as [|r rows].
  - repeat (apply log_blind_bind; [apply log_blind_on_table|]; intros _).
    apply log_blind_on_table.
  - apply log_blind_bind; [apply log_blind_on_table|]. intros _.
    apply log_blind_for_each, log_blind_render_row.
Qed.

(** X6.  A quarantine query that raises costs the cycle nothing but the
    quarantine rows: the [try] block ends the same way, and the table ends up
    the same, as if the query had worked and found no record. *)
Theorem quarantine_failure_like_no_records env e w :
  quarantine_fault env = Some e ->
  (refresh_body env w).1 = (refresh_body (without_quarantine env) w).1 /\
  table (refresh env w).2 = table (refresh (without_quarantine env) w).2.
Proof.
  intros Hq.
  assert (Hfq : fetch_quarantine env (window_start env) = Raise e).
  { unfold fetch_quarantine. by rewrite Hq. }
  unfold refresh, try_except, refresh_body, bind.
  rewrite !collect_rows_unfold, Hfq.
  change (db_close (without_quarantine env)) with (db_close env).
  change (fetch_alerts (without_quarantine env)) with (fetch_alerts env).
  change (fetch_quarantine (without_quarantine env)
            (window_start (without_quarantine env))) with (Ok (A:=list QuarantinedFile.t) []).
  change (alert_row (without_quarantine env)) with (alert_row env).
  destruct (db_close env) as [[]|e0]; [|done].
  destruct (fetch_alerts env) as [alerts|e0]; [|done]. cbn zeta.
  destruct (rmap (alert_row env) alerts) as [arows|e0]; [|done].
  cbn [map]. rewrite app_nil_r.
  change (update_table (without_quarantine env)) with (update_table env).
  rewrite (log_blind_update_table env (sort_rows arows)).
  destruct (update_table env (sort_rows arows) _) as [[[]|e0] w2]; done.
Qed.

(** ** The edge of the quarantine window *)

(** X7.  The window is closed at its old end and open-ended at its new end:
    as long as it holds no more than 50 records, a stored record is drawn
    exactly when it was detected no more than 24 hours (86 400 000 000
    microseconds) before the refresh time; a record detected exactly 24 hours
    before is drawn, and so is one dated after the refresh time. *)
Theorem quarantine_window_inclusive env qs q :
  fetch_quarantine env (window_start env) = Ok qs ->
  (length (List.filter (in_window (window_start env)) (quarantine_table env)) <= 50)%nat ->
  In q qs <->
  In q (quarantine_table env) /\ now env - QuarantinedFile.detected_at q <= 86400000000.
Proof.
  unfold fetch_quarantine. destruct (quarantine_fault env); [done|].
  intros [= <-] Hlen.
  rewrite take_ge by (rewrite sort_desc_length; exact Hlen).
  split.
  - intros Hq. apply (Permutation_in _ (sort_desc_perm _ _)) in Hq.
    apply List.filter_In in Hq as [Hin Hw]. split; [done|].
    unfold in_window, window_start, Py.timedelta_hours in Hw.
    apply Z.leb_le in Hw. lia.
  - intros [Hin Hw].
    apply (Permutation_in _ (Permutation_sym (sort_desc_perm _ _))).
    apply List.filter_In. split; [done|].
    unfold in_window, window_start, Py.timedelta_hours. apply Z.leb_le. lia.
Qed.

(** ** The order of a cycle without quarantine rows *)

Section SortedInput.
Context {A : Type} (key : A -> Z).

Lemma insert_desc_front x (l : list A) :
  Forall (desc key x) l -> insert_desc key x l = x :: l.
Proof.
  destruct l as [|y l]; [done|]. intros Hall. cbn.
  apply Forall_cons in Hall as [Hy _]. unfold desc in Hy.
  destruct (Z.ltb_spec (key x) (key y)); [lia|done].
Qed.

(** Sorting what is already in descending order changes nothing. *)
Lemma sort_desc_sorted_id (l : list A) :
  StronglySorted (desc key) l -> sort_desc key l = l.
Proof.
  induction 1 as [|x l Hl IH Hx]; [done|].
  cbn. fold (sort_desc key l). rewrite IH. by apply insert_desc_front.
Qed.

Lemma StronglySorted_take n (l : list A) :
  StronglySorted (desc key) l -> StronglySorted (desc key) (take n l).
Proof.
  intros Hs. revert n. induction Hs as [|x l Hl IH Hx]; intros [|n]; cbn;
    try constructor; auto.
  apply List.Forall_forall. intros y Hy%In_take.
  rewrite List.Forall_forall in Hx. auto.
Qed.

End SortedInput.

Lemma StronglySorted_desc_transfer {A B} (ka : A -> Z) (kb : B -> Z)
    (R : A -> B -> Prop) l k :
  (forall x y, R x y -> kb y = ka x) ->
  Forall2 R l k ->
  StronglySorted (desc ka) l -> StronglySorted (desc kb) k.
Proof.
  intros HR HF. induction HF as [|x y l k Hxy HF IH]; intros Hs; [constructor|].
  apply StronglySorted_inv in Hs as [Hs Hx]. constructor; [auto|].
  clear IH Hs. induction HF as [|x' y' l k Hxy' HF IH]; [constructor|].
  apply Forall_cons in Hx as [Hx' Hx]. constructor; [|auto].
  unfold desc in *. rewrite (HR _ _ Hxy), (HR _ _ Hxy'). exact Hx'.
Qed.

(** X8.  When a cycle has no quarantine rows (none in the window, or the
    query failed), the rows handed to the table are the alert rows in exactly
    the order in which the alerts were fetched: the sort finds them already
    in descending order and moves nothing, ties included. *)
Theorem fetch_order_kept_without_quarantine env w rows w1 alerts :
  collect_rows env w = (Ok rows, w1) ->
  fetch_alerts env = Ok alerts ->
  quarantine_rows env = [] ->
  Forall2 (fun a r => alert_row env a = Ok r) alerts rows /\
  map Row.time rows = map Alert.timestamp alerts.
Proof.
  intros Hc Hf Hq.
  destruct (collect_rows_ok env w rows w1 Hc) as (alerts' & arows & _ & Hf' & Ha & ->).
  rewrite Hf in Hf'. injection Hf' as <-.
  rewrite Hq, app_nil_r.
  assert (HF : Forall2 (fun a r => alert_row env a = Ok r /\ Row.time r = Alert.timestamp a)
                 alerts arows).
  { apply rmap_Forall2 in Ha. eapply Forall2_impl; [exact Ha|].
    intros a r Hr. split; [done|]. unfold alert_row in Hr.
    destruct (Alert.connection a); [|done]. by injection Hr as <-. }
  assert (Hsorted : StronglySorted (desc Alert.timestamp) alerts).
  { unfold fetch_alerts in Hf. destruct (alert_fault env); [done|].
    injection Hf as <-. apply StronglySorted_take, sort_desc_sorted. }
  unfold sort_rows. rewrite sort_desc_sorted_id.
  - split; [eapply Forall2_impl; [exact HF|]; by intros a r [? _]|].
    clear -HF. induction HF as [|a r l k [_ Ht] _ IH]; [done|].
    cbn. by rewrite Ht, IH.
  - eapply StronglySorted_desc_transfer; [|exact HF|exact Hsorted].
    by intros a r [_ ?].
Qed.

(** ** Which address wins *)

Lemma or_str_truthy x d : Py.truthy_str x = true -> Py.or_str x d = Py.fmt_str x.
Proof.
  destruct x as [s|]; [|done]. cbn. by destruct (String.eqb s "").
Qed.

Lemma absent_not_truthy x : absent x -> Py.truthy_str x = false.
Proof. by intros [-> | ->]. Qed.

(** X10.  For an alert with a connection the two addresses are resolved in
    opposite orders.  The source is the alert's own whenever it has one, and
    the connection's only otherwise; the destination is the connection's
    address and port whenever the connection has a destination address, even
    if the alert has a destination of its own, and the alert's only
    otherwise. *)
Theorem address_precedence env a c :
  Alert.connection a = Ok (Some c) ->
  alert_row env a = Ok (build_row env a (Some c)) /\
  (Py.truthy_str (Alert.src_ip a) = true ->
   Row.src (build_row env a (Some c)) = Py.fmt_str (Alert.src_ip a)) /\
  (absent (Alert.src_ip a) ->
   Row.src (build_row env a (Some c)) = Py.or_str (Connection.src_ip c) "") /\
  (Py.truthy_str (Connection.dst_ip c) = true ->
   Row.dst (build_row env a (Some c)) =
     Py.fmt_str (Connection.dst_ip c) +:+ ":" +:+ Py.fmt_int (Connection.dst_port c)) /\
  (absent (Connection.dst_ip c) ->
   Row.dst (build_row env a (Some c)) = own_dst a).
Proof.
  intros Hconn. split; [unfold alert_row; by rewrite Hconn|].
  cbn [build_row Row.src Row.dst]. unfold resolve_src, resolve_dst.
  split.
  { intros Ht. rewrite (or_str_truthy _ _ Ht).
    destruct (Alert.src_ip a) as [s|]; [|done]. cbn in *.
    by destruct (String.eqb s ""). }
  split; [by intros [-> | ->]|].
  split; [by intros ->|].
  intros Ha; by rewrite (absent_not_truthy _ Ha).
Qed.

(** X11.  When the destination comes from the alert itself (there is no
    connection, or the connection has no destination address), the cell is
    empty if the alert has no destination address, even if it has a port; it
    is the address alone, with nothing appended, if the alert has no port;
    and it is [address:port] otherwise. *)
Theorem own_destination_forms env a conn :
  conn = None \/ (exists c, conn = Some c /\ absent (Connection.dst_ip c)) ->
  (absent (Alert.dst_ip a) -> Row.dst (build_row env a conn) = "") /\
  (Py.truthy_str (Alert.dst_ip a) = true -> ~ has_port (Alert.dst_port a) ->
   Row.dst (build_row env a conn) = Py.fmt_str (Alert.dst_ip a)) /\
  (forall p, Py.truthy_str (Alert.dst_ip a) = true ->
     Alert.dst_port a = Some p -> p <> 0 ->
     Row.dst (build_row env a conn) =
       Py.fmt_str (Alert.dst_ip a) +:+ ":" +:+ Py.str_int p).
Proof.
  intros Hconn.
  assert (Hd : Row.dst (build_row env a conn) = own_dst a).
  { cbn. destruct Hconn as [->|(c & -> & Ha)]; [done|].
    cbn. by rewrite (absent_not_truthy _ Ha). }
  rewrite Hd. unfold own_dst, has_port.
  split; [intros Ha; by rewrite (absent_not_truthy _ Ha)|].
  split.
  - intros -> Hp. destruct (Py.truthy_int (Alert.dst_port a)); [done|].
    apply append_empty.
  - intros p -> -> Hp. cbn. by destruct (Z.eqb_spec p 0).
Qed.

(** * Further properties of the column manager *)

Section ManagerMore.
Context `{HeaderCodec}.

(** ** The equal-width default is set at most once *)

(** X13.  [handle_resize] acts at most once: applied again to its own
    result it changes nothing, whatever the first call did.  A viewport of
    300 or less, or a table without columns, is left for a later event: the
    call changes nothing and the default stays pending. *)
Theorem handle_resize_at_most_once m (g : Gui) :
  handle_resize (handle_resize m g).1 (handle_resize m g).2 = handle_resize m g /\
  (Qt.viewport_width (gtable g) <= 300 \/ Qt.columnCount (gtable g) = 0%nat ->
   handle_resize m g = (m, g)).
Proof.
  split.
  - unfold handle_resize at 2 3 4.
    destruct (default_set m) eqn:Hd; cbn [negb].
    + cbn. by apply handle_resize_established.
    + destruct (300 <? Qt.viewport_width (gtable g)) eqn:Hw.
      * destruct (0 <? Qt.columnCount (gtable g))%nat eqn:Hn.
        -- cbn [fst snd]. by apply handle_resize_established.
        -- cbn [fst snd]. unfold handle_resize. by rewrite Hd, Hw, Hn.
      * cbn [fst snd]. unfold handle_resize. by rewrite Hd, Hw.
  - intros Hor. unfold handle_resize.
    destruct (negb (default_set m)); [|done].
    destruct (Z.ltb_spec 300 (Qt.viewport_width (gtable g))); [|done].
    destruct Hor as [?|Hn]; [lia|]. by rewrite Hn.
Qed.

(** ** The stored layout follows the header *)

Lemma resizeSection_slots i width (g : Gui) :
  Qt.resized_slots (gtable (resizeSection i width g)) = Qt.resized_slots (gtable g).
Proof.
  unfold resizeSection.
  destruct (Qt.sizes (Qt.hstate (gtable g)) !! i); [|done].
  destruct (_ || _); [done|].
  by rewrite (proj1 (emit_sectionResized_spec _)).
Qed.

Lemma resizeSection_in_sync key i width (g : Gui) :
  connected key (gtable g) ->
  resizeSection i width g = g \/ in_sync key (resizeSection i width g).
Proof.
  intros (s & Hin & Hkey). unfold resizeSection.
  destruct (Qt.sizes (Qt.hstate (gtable g)) !! i); [|by left].
  destruct (_ || _); [by left|]. right.
  destruct (emit_sectionResized_spec (on_header (Header.set_size i width) g))
    as (Ht & Hs & _).
  unfold in_sync. rewrite Ht, <- Hkey. by apply Hs.
Qed.

Lemma distribute_slots width l (g : Gui) :
  Qt.resized_slots (gtable (foldl (fun g i => setColumnWidth i width g) g l)) =
  Qt.resized_slots (gtable g).
Proof.
  induction l as [|j l IHl] using rev_ind; [done|].
  rewrite foldl_app. cbn [foldl]. unfold setColumnWidth at 1.
  by rewrite resizeSection_slots.
Qed.

Lemma distribute_in_sync key width l : forall g : Gui,
  connected key (gtable g) ->
  let g' := foldl (fun g i => setColumnWidth i width g) g l in
  g' = g \/ in_sync key g'.
Proof.
  induction l as [|i l IH]; intros g Hc; [by left|].
  cbn [foldl]. cbn zeta in *.
  assert (Hc1 : connected key (gtable (setColumnWidth i width g))).
  { destruct Hc as (s & Hin & Hkey). exists s.
    unfold setColumnWidth. by rewrite resizeSection_slots. }
  destruct (IH _ Hc1) as [-> | Hsync]; [|by right].
  by apply resizeSection_in_sync.
Qed.

(** X14.  While a slot writing under [key] is connected, the state stored
    under [key] never falls behind the header: a resize by the user and a
    resize event either change nothing at all or leave the stored state equal
    to the saved state of the header, so a layout that is stored stays
    stored, through any sequence of them. *)
Theorem resizes_keep_layout_stored key (g : Gui) :
  connected key (gtable g) ->
  (forall i width,
     (user_resize i width g = g \/ in_sync key (user_resize i width g)) /\
     connected key (gtable (user_resize i width g))) /\
  (forall m,
     ((handle_resize m g).2 = g \/ in_sync key (handle_resize m g).2) /\
     connected key (gtable (handle_resize m g).2)) /\
  (in_sync key g ->
   (forall i width, in_sync key (user_resize i width g)) /\
   (forall m, in_sync key (handle_resize m g).2)).
Proof.
  intros Hc.
  assert (Hu : forall i width,
            (user_resize i width g = g \/ in_sync key (user_resize i width g)) /\
            connected key (gtable (user_resize i width g))).
  { intros i width. split; [by apply resizeSection_in_sync|].
    destruct Hc as (s & Hin & Hkey). exists s.
    unfold user_resize. by rewrite resizeSection_slots. }
  assert (Hh : forall m,
            ((handle_resize m g).2 = g \/ in_sync key (handle_resize m g).2) /\
            connected key (gtable (handle_resize m g).2)).
  { intros m. unfold handle_resize.
    destruct (negb (default_set m)); [|by split; [left|]].
    destruct (300 <? _); [|by split; [left|]].
    destruct (0 <? _)%nat; [|by split; [left|]].
    cbn [snd]. split; [by apply distribute_in_sync|].
    destruct Hc as (s & Hin & Hkey). exists s. by rewrite distribute_slots. }
  split; [exact Hu|]. split; [exact Hh|].
  intros Hsync. split.
  - intros i width. by destruct (Hu i width) as [[-> | ?] _].
  - intros m. by destruct (Hh m) as [[-> | ?] _].
Qed.

(** X15.  A resize writes under the keys of the connected slots and under no
    other key, and [save_state] writes under its own key only; neither
    changes any cell or span of the table. *)
Theorem stored_layouts_isolated k (g : Gui) :
  (forall s, In s (Qt.resized_slots (gtable g)) -> Qt.slot_key s <> k) ->
  (forall i width,
     settings (user_resize i width g) !! k = settings g !! k /\
     Qt.cells (gtable (user_resize i width g)) = Qt.cells (gtable g) /\
     Qt.spans (gtable (user_resize i width g)) = Qt.spans (gtable g)) /\
  (forall m, settings_key m <> k ->
     settings (save_state m g) !! k = settings g !! k /\
     gtable (save_state m g) = gtable g).
Proof.
  intros Hk. split.
  - intros i width. unfold user_resize, resizeSection.
    destruct (Qt.sizes (Qt.hstate (gtable g)) !! i); [|done].
    destruct (_ || _); [done|].
    destruct (emit_sectionResized_spec (on_header (Header.set_size i width) g))
      as (Ht & _ & Hother).
    rewrite Ht. split; [|done]. by rewrite Hother.
  - intros m Hne. split; [|done].
    unfold save_state, save_under. cbn. by rewrite lookup_insert_ne.
Qed.

(** ** Connecting [save_state] *)

Lemma slot_eqb_eq a b : slot_eqb a b = true <-> a = b.
Proof.
  unfold slot_eqb. rewrite andb_true_iff, Nat.eqb_eq, String.eqb_eq.
  destruct a, b; cbn. split; [by intros [-> ->]|by intros [= -> ->]].
Qed.

Lemma restore_state_slots m (g : Gui) :
  Qt.resized_slots (gtable (restore_state m g).2) =
    connect (slot m)
      match disconnect (slot m) (Qt.resized_slots (gtable g)) with
      | Ok l => l
      | Raise _ => Qt.resized_slots (gtable g)
      end.
Proof.
  unfold restore_state.
  destruct (settings g !! settings_key m) as [st|]; [destruct (blob_truthy st)|];
    match goal with |- context [interactive_each (on_header _ ?G)] =>
      destruct (interactive_each_modes G) as [ms ->] end;
    reflexivity.
Qed.

Lemma setup_slots m (g : Gui) :
  Qt.resized_slots (gtable (setup m g).2) =
    connect (slot m)
      match disconnect (slot m) (Qt.resized_slots (gtable g)) with
      | Ok l => l
      | Raise _ => Qt.resized_slots (gtable g)
      end.
Proof. destruct (setup_prefix m g) as [ms ->]. by rewrite restore_state_slots. Qed.

Lemma setup_manager m (g : Gui) :
  exists b, (setup m g).1 = set_default m b.
Proof.
  destruct (setup_prefix m g) as [ms ->]. unfold restore_state.
  destruct (settings _ !! settings_key m) as [st|]; [destruct (blob_truthy st)|];
    eexists; reflexivity.
Qed.

Lemma disconnect_other s s' l :
  s' <> s ->
  List.filter (slot_eqb s')
    match disconnect s l with Ok l' => l' | Raise _ => l end =
  List.filter (slot_eqb s') l.
Proof.
  intros Hne. induction l as [|x l IH]; [done|]. cbn.
  destruct (slot_eqb s x) eqn:Hsx.
  - apply slot_eqb_eq in Hsx as <-.
    destruct (slot_eqb s' s) eqn:Hs's; [|done].
    by apply slot_eqb_eq in Hs's.
  - destruct (disconnect s l) as [l'|]; cbn in *; [|done]. by rewrite IH.
Qed.

Lemma connect_once s l :
  (length (List.filter (slot_eqb s) l) <= 1)%nat ->
  length (List.filter (slot_eqb s)
            (connect s match disconnect s l with Ok l' => l' | Raise _ => l end)) = 1%nat.
Proof.
  assert (Hss : slot_eqb s s = true) by by apply slot_eqb_eq.
  unfold connect. induction l as [|s' l IH]; intros Hle; cbn.
  - by rewrite Hss.
  - cbn in Hle. destruct (slot_eqb s s') eqn:Heq.
    + cbn in Hle. rewrite List.filter_app. cbn. rewrite Hss, length_app. cbn.
      destruct (List.filter (slot_eqb s) l); cbn in *; lia.
    + specialize (IH Hle). destruct (disconnect s l) as [l'|]; cbn; by rewrite Heq.
Qed.

(** X16.  [setup] never registers [save_state] twice.  If the manager's
    slot is connected at most once before, it is connected exactly once
    after [setup], and still exactly once after a second [setup]; the
    connections of every other slot are left as they were. *)
Theorem setup_connects_once m (g : Gui) :
  (connections (slot m) (gtable g) <= 1)%nat ->
  connections (slot m) (gtable (setup m g).2) = 1%nat /\
  connections (slot m) (gtable (setup (setup m g).1 (setup m g).2).2) = 1%nat /\
  (forall s, s <> slot m ->
     connections s (gtable (setup m g).2) = connections s (gtable g)).
Proof.
  intros Hle. unfold connections in *.
  assert (H1 : length (List.filter (slot_eqb (slot m))
                         (Qt.resized_slots (gtable (setup m g).2))) = 1%nat).
  { rewrite setup_slots. by apply connect_once. }
  split; [exact H1|]. split.
  - destruct (setup_manager m g) as [b Hb].
    assert (Hslot : slot (setup m g).1 = slot m) by (by rewrite Hb).
    rewrite setup_slots, Hslot. apply connect_once. lia.
  - intros s Hne. rewrite setup_slots. unfold connect.
    rewrite List.filter_app, length_app, disconnect_other by done.
    cbn. destruct (slot_eqb s (slot m)) eqn:Heq; [|cbn; lia].
    by apply slot_eqb_eq in Heq.
Qed.

(** ** What [setup] finds in the settings *)

Lemma restore_state_unusable m (g : Gui) :
  match settings g !! settings_key m with
  | Some st => blob_truthy st = false
  | None => True
  end ->
  exists ms slots,
    restore_state m g =
      (set_default m false,
       on_header (with_modes ms)
         (set_gtable g (Qt.with_slots (gtable g) (slots ++ [slot m])))).
Proof.
  intros Hn. unfold restore_state.
  destruct (settings g !! settings_key m) as [st|]; [rewrite Hn|];
    match goal with |- context [interactive_each (on_header _ ?G)] =>
      destruct (interactive_each_modes G) as [ms ->] end;
    exists ms; unfold connect; cbn;
    destruct (disconnect _ _) as [l|]; eexists; reflexivity.
Qed.

(** X17.  After [setup] the layout counts as established exactly when a
    non-empty state is stored under the manager's key, and [setup] writes
    nothing to the settings.  Without such a state (no entry, or an empty
    byte array) the column order is what it was, the last section is set to
    stretch, the sections are movable and the equal-width default is still
    pending.  With one, the header is whatever [restoreState] makes of it
    (the resize modes apart), and no later call of [handle_resize] changes
    anything: [setup] does not look at what [restoreState] did. *)
Theorem setup_establishes_iff_state_stored m (g : Gui) :
  (default_set (setup m g).1 = true <->
   exists st, settings g !! settings_key m = Some st /\ blob_truthy st = true) /\
  settings (setup m g).2 = settings g /\
  (default_set (setup m g).1 = false ->
   Qt.visual_order (Qt.hstate (gtable (setup m g).2)) =
     Qt.visual_order (Qt.hstate (gtable g)) /\
   Qt.stretch_last (Qt.hstate (gtable (setup m g).2)) = true /\
   Qt.movable (Qt.hstate (gtable (setup m g).2)) = true) /\
  (forall st, settings g !! settings_key m = Some st -> blob_truthy st = true ->
     (exists ms h0,
        Qt.hstate (gtable (setup m g).2) = with_modes ms (restoreState st h0)) /\
     forall g' : Gui, handle_resize (setup m g).1 g' = ((setup m g).1, g')).
Proof.
  destruct (settings g !! settings_key m) as [st|] eqn:Hs;
    [destruct (blob_truthy st) eqn:Ht|].
  - destruct (setup_restored m g st Hs Ht) as (Hm & (ms & h0 & _ & Hh) & Hset & _).
    rewrite Hm. cbn [default_set set_default].
    split; [split; [by exists st|done]|]. split; [exact Hset|].
    split; [done|]. intros st' [= <-] _. split; [by exists ms, h0|].
    intros g'. by apply handle_resize_established.
  - destruct (setup_prefix m g) as [ms0 Hp]. rewrite Hp.
    match goal with |- context [restore_state m ?G] =>
      destruct (restore_state_unusable m G) as (ms & slots & ->) end.
    { cbn. by rewrite Hs. }
    cbn. split; [split; [done|by intros (st' & [= <-] & ?); congruence]|].
    split; [done|]. split; [done|]. intros st' [= <-] ?. congruence.
  - destruct (setup_prefix m g) as [ms0 Hp]. rewrite Hp.
    match goal with |- context [restore_state m ?G] =>
      destruct (restore_state_unusable m G) as (ms & slots & ->) end.
    { cbn. by rewrite Hs. }
    cbn. split; [split; [done|by intros (st' & [=] & ?)]|].
    split; [done|]. split; [done|]. by intros st' [=].
Qed.

(** ** Resize modes *)



(** ** The manager never touches the grid *)

Lemma resizeSection_grid i width (g : Gui) :
  Qt.cells (gtable (resizeSection i width g)) = Qt.cells (gtable g) /\
  Qt.spans (gtable (resizeSection i width g)) = Qt.spans (gtable g) /\
  Qt.columnCount (gtable (resizeSection i width g)) = Qt.columnCount (gtable g).
Proof.
  unfold resizeSection.
  destruct (Qt.sizes (Qt.hstate (gtable g)) !! i); [|done].
  destruct (_ || _); [done|].
  rewrite (proj1 (emit_sectionResized_spec _)). unfold Qt.columnCount. cbn.
  by rewrite length_insert.
Qed.

Lemma handle_resize_grid m (g : Gui) :
  Qt.cells (gtable (handle_resize m g).2) = Qt.cells (gtable g) /\
  Qt.spans (gtable (handle_resize m g).2) = Qt.spans (gtable g) /\
  Qt.columnCount (gtable (handle_resize m g).2) = Qt.columnCount (gtable g).
Proof.
  assert (Hd : forall width l (g0 : Gui),
            let g' := foldl (fun g i => setColumnWidth i width g) g0 l in
            Qt.cells (gtable g') = Qt.cells (gtable g0) /\
            Qt.spans (gtable g') = Qt.spans (gtable g0) /\
            Qt.columnCount (gtable g') = Qt.columnCount (gtable g0)).
  { intros width l. induction l as [|i l IH] using rev_ind; intros g0; [done|].
    cbn zeta. rewrite foldl_app. cbn [foldl]. unfold setColumnWidth at 1 3 5.
    destruct (resizeSection_grid i width
                (foldl (fun g i => setColumnWidth i width g) g0 l))
      as (-> & -> & ->).
    apply IH. }
  unfold handle_resize.
  destruct (negb (default_set m)); [|done].
  destruct (300 <? _); [|done].
  destruct (0 <? _)%nat; [|done]. cbn [snd]. apply Hd.
Qed.

(** X19.  The column manager works on the header and the settings only:
    a resize by the user, [handle_resize] and [save_state] leave every cell
    and every span of the table as they are, and the number of columns
    too. *)
Theorem manager_keeps_grid m (g : Gui) :
  (forall i width,
     Qt.cells (gtable (user_resize i width g)) = Qt.cells (gtable g) /\
     Qt.spans (gtable (user_resize i width g)) = Qt.spans (gtable g) /\
     Qt.columnCount (gtable (user_resize i width g)) = Qt.columnCount (gtable g)) /\
  (Qt.cells (gtable (handle_resize m g).2) = Qt.cells (gtable g) /\
   Qt.spans (gtable (handle_resize m g).2) = Qt.spans (gtable g) /\
   Qt.columnCount (gtable (handle_resize m g).2) = Qt.columnCount (gtable g)) /\
  gtable (save_state m g) = gtable g.
Proof.
  split; [intros i width; apply resizeSection_grid|].
  split; [apply handle_resize_grid|done].
Qed.

End ManagerMore.

(** * The widget at shutdown *)

Section Shutdown.
Context `{HeaderCodec} `{!HeaderCodecLaws}.

(** X21.  [cleanup] saves the layout for the next session even when no
    column was ever resized: it leaves the table alone, and [setup] of a
    manager with the same key, over the settings [cleanup] left and a table
    with as many columns, puts back exactly the widths and the column order
    the table had at shutdown and marks the layout established. *)
Theorem cleanup_saves_for_next_session (wd : Widget) m m' (g' : Gui) :
  col_manager wd = Some m ->
  settings_key m' = settings_key m ->
  settings g' = settings (gui (cleanup wd)) ->
  Qt.columnCount (gtable g') = Qt.columnCount (gtable (gui wd)) ->
  gtable (gui (cleanup wd)) = gtable (gui wd) /\
  wlog (cleanup wd) = wlog wd /\
  Qt.sizes (Qt.hstate (gtable (setup m' g').2)) =
    Qt.sizes (Qt.hstate (gtable (gui wd))) /\
  Qt.visual_order (Qt.hstate (gtable (setup m' g').2)) =
    Qt.visual_order (Qt.hstate (gtable (gui wd))) /\
  default_set (setup m' g').1 = true.
Proof.
  intros Hm Hkey Hset Hcols. unfold cleanup in *. rewrite Hm in *.
  cbn [gui wlog] in *. split; [done|]. split; [done|].
  assert (Hsaved : settings g' !! settings_key m' =
                   Some (saveState (Qt.hstate (gtable (gui wd))))).
  { rewrite Hset, Hkey. unfold save_state, save_under. cbn.
    apply lookup_insert_eq. }
  destruct (setup_restored m' g' _ Hsaved (save_truthy _))
    as (Hm' & (ms & h0 & Hh0 & Hh) & _).
  rewrite Hm', Hh, restore_save; [done|].
  rewrite Hh0. exact Hcols.
Qed.

End Shutdown.

(** * Further properties of the process chain *)

Lemma rmap_ext {A B} (f g : A -> result B) l :
  (forall x, f x = g x) -> rmap f l = rmap g l.
Proof.
  intros Hfg. induction l as [|x l IH]; [done|]. cbn. by rewrite Hfg, IH.
Qed.

Lemma resolve_chain_fallback env conn :
  resolve_chain (with_pid_fallback env) conn = resolve_chain env conn.
Proof.
  unfold resolve_chain. destruct conn as [c|]; [|done].
  destruct (Connection.pid c) as [p|]; [|done].
  destruct (negb (p =? 0)); [|done]. cbn.
  by destruct (build_process_chain env p).
Qed.

(** X22.  The failures of the ancestry lookup are absorbed completely: a
    cycle run with a lookup that raises is, in its outcome, its table and its
    log, the cycle run with a lookup that returns ["PID <id>"] wherever the
    first one raises. *)
Theorem lookup_failures_absorbed env w :
  refresh env w = refresh (with_pid_fallback env) w /\
  (forall p, exists chain, build_process_chain (with_pid_fallback env) p = Ok chain).
Proof.
  split.
  - assert (Hrow : forall a, alert_row (with_pid_fallback env) a = alert_row env a).
    { intros a. unfold alert_row. destruct (Alert.connection a) as [conn|]; [|done].
      cbn. unfold build_row. by rewrite resolve_chain_fallback. }
    unfold refresh, try_except, refresh_body, bind.
    rewrite !collect_rows_unfold.
    change (db_close (with_pid_fallback env)) with (db_close env).
    change (fetch_alerts (with_pid_fallback env)) with (fetch_alerts env).
    change (fetch_quarantine (with_pid_fallback env)
              (window_start (with_pid_fallback env)))
      with (fetch_quarantine env (window_start env)).
    change (update_table (with_pid_fallback env)) with (update_table env).
    destruct (db_close env); [|done].
    destruct (fetch_alerts env) as [alerts|]; [|done]. cbn zeta.
    by rewrite (rmap_ext _ _ alerts Hrow).
  - intros p. cbn. destruct (build_process_chain env p); eauto.
Qed.

(** The ancestry lookup is made for a non-zero process id only.  With
    no connection, with a connection without process id, or with the process
    id 0, the process-chain cell is empty whatever the lookup would answer;
    with a non-zero process id whose lookup succeeds it is the lookup's
    answer, unchanged. *)
Lemma chain_cell_cases env a conn :
  (conn = None \/
   (exists c, conn = Some c /\ ~ Py.truthy_int (Connection.pid c) = true) ->
   Row.process_chain (build_row env a conn) = "") /\
  (forall c p chain,
     conn = Some c -> Connection.pid c = Some p -> p <> 0 ->
     build_process_chain env p = Ok chain ->
     Row.process_chain (build_row env a conn) = chain).
Proof.
  cbn [build_row Row.process_chain]. unfold resolve_chain. split.
  - intros [->|(c & -> & Hp)]; [done|].
    destruct (Connection.pid c) as [p|]; [|done]. cbn in Hp.
    by destruct (negb (p =? 0)).
  - intros c p chain -> -> Hp ->. by destruct (Z.eqb_spec p 0).
Qed.

(** * Sample runs of the further properties *)

Lemma connection_failure_aborts_cycle_witness :
  table (refresh SampleMore.env_broken_connection Sample.world0).2 = Sample.old_table.
Proof.
  assert (Hf : fetch_alerts SampleMore.env_broken_connection =
               Ok [Sample.scan_alert; SampleMore.broken_alert])
    by (vm_compute; reflexivity).
  destruct (connection_failure_aborts_cycle SampleMore.env_broken_connection
              Sample.world0 _ SampleMore.broken_alert Sample.db_down
              eq_refl Hf (or_intror (or_introl eq_refl)) eq_refl) as (e' & _ & Ht).
  exact Ht.
Defined.

Lemma rebuild_stops_at_failed_conversion_witness :
  (update_table SampleMore.env_one_bad_time
     [quarantine_row (SampleMerge.file_at 3000 "a.exe");
      quarantine_row (SampleMerge.file_at 1000 "b.exe")]
     Sample.world0).1 = Raise Sample.naive_time /\
  Qt.rowCount (table (update_table SampleMore.env_one_bad_time
     [quarantine_row (SampleMerge.file_at 3000 "a.exe");
      quarantine_row (SampleMerge.file_at 1000 "b.exe")]
     Sample.world0).2) = 2%nat.
Proof.
  assert (H7 : seven_columns Sample.world0) by (vm_compute; reflexivity).
  assert (Hl : local_times SampleMore.env_one_bad_time
                 [quarantine_row (SampleMerge.file_at 3000 "a.exe")] = Ok ["3000"])
    by (vm_compute; reflexivity).
  assert (He : localtime_strftime SampleMore.env_one_bad_time
                 (Row.time (quarantine_row (SampleMerge.file_at 1000 "b.exe"))) =
               Raise Sample.naive_time) by (vm_compute; reflexivity).
  pose proof (rebuild_stops_at_failed_conversion SampleMore.env_one_bad_time
                [quarantine_row (SampleMerge.file_at 3000 "a.exe")]
                (quarantine_row (SampleMerge.file_at 1000 "b.exe")) [] ["3000"]
                Sample.naive_time Sample.world0 H7 Hl He) as Hx.
  cbn zeta in Hx. destruct Hx as (Ho & Hn & _).
  split; [exact Ho|exact Hn].
Defined.

Lemma quarantine_failure_like_no_records_witness :
  table (refresh Sample.env_quarantine_down Sample.world0).2 =
  table (refresh (without_quarantine Sample.env_quarantine_down) Sample.world0).2.
Proof.
  exact (proj2 (quarantine_failure_like_no_records Sample.env_quarantine_down
                  Sample.db_down Sample.world0 eq_refl)).
Defined.

Lemma quarantine_window_inclusive_witness :
  In SampleMore.on_the_edge [SampleMore.on_the_edge] /\
  ~ In SampleWindow.too_old [SampleMore.on_the_edge].
Proof.
  assert (Hf : fetch_quarantine SampleMore.env_edge (window_start SampleMore.env_edge) =
               Ok [SampleMore.on_the_edge]) by (vm_compute; reflexivity).
  assert (Hlen : (length (List.filter (in_window (window_start SampleMore.env_edge))
                            (quarantine_table SampleMore.env_edge)) <= 50)%nat)
    by (vm_compute; lia).
  split.
  - apply (quarantine_window_inclusive SampleMore.env_edge _ _ Hf Hlen).
    split; [right; by left|]. vm_compute. discriminate.
  - intros Hin.
    apply (quarantine_window_inclusive SampleMore.env_edge _ _ Hf Hlen) in Hin
      as [_ Hw].
    vm_compute in Hw. by apply Hw.
Defined.

Lemma fetch_order_kept_without_quarantine_witness :
  exists rows,
    (collect_rows SampleMore.env_alerts_only Sample.world0).1 = Ok rows /\
    map Row.time rows = [3000; 1000].
Proof.
  assert (Hc : collect_rows SampleMore.env_alerts_only Sample.world0 =
               (Ok [build_row SampleMore.env_alerts_only
                      (SampleMerge.alert_at 3000 "second") None;
                    build_row SampleMore.env_alerts_only
                      (SampleMerge.alert_at 1000 "first") None],
                (collect_rows SampleMore.env_alerts_only Sample.world0).2))
    by (vm_compute; reflexivity).
  assert (Hf : fetch_alerts SampleMore.env_alerts_only =
               Ok [SampleMerge.alert_at 3000 "second"; SampleMerge.alert_at 1000 "first"])
    by (vm_compute; reflexivity).
  destruct (fetch_order_kept_without_quarantine SampleMore.env_alerts_only
              Sample.world0 _ _ _ Hc Hf eq_refl) as [_ Ht].
  eexists. split; [by rewrite Hc|]. rewrite Ht. reflexivity.
Defined.

Lemma address_precedence_witness :
  Row.src (build_row SampleMerge.env_mixed SampleMore.alert_both (Some Sample.conn42))
    = "192.168.1.9" /\
  Row.dst (build_row SampleMerge.env_mixed SampleMore.alert_both (Some Sample.conn42))
    = "10.0.0.5:443".
Proof.
  destruct (address_precedence SampleMerge.env_mixed SampleMore.alert_both
              Sample.conn42 eq_refl) as (_ & Hs & _ & Hd & _).
  split; [apply Hs|apply Hd]; reflexivity.
Defined.

Lemma own_destination_forms_witness :
  Row.dst (build_row SampleMerge.env_mixed (SampleDst.alert_own None) None) = "10.0.0.5" /\
  Row.dst (build_row SampleMerge.env_mixed (SampleDst.alert_own (Some 8080)) None)
    = "10.0.0.5:8080".
Proof.
  destruct (own_destination_forms SampleMerge.env_mixed (SampleDst.alert_own None)
              None (or_introl eq_refl)) as (_ & Hbare & _).
  destruct (own_destination_forms SampleMerge.env_mixed
              (SampleDst.alert_own (Some 8080)) None (or_introl eq_refl))
    as (_ & _ & Hport).
  split.
  - apply Hbare; [reflexivity|]. unfold has_port. cbn. discriminate.
  - apply (Hport 8080); [reflexivity|reflexivity|lia].
Defined.

Lemma ready_connected :
  connected "timeline_table_state" (gtable SampleMore.ready).
Proof.
  exists (slot SampleLayout.manager). split; [|reflexivity].
  apply setup_connected.
Qed.

Lemma resizes_keep_layout_stored_witness :
  in_sync "timeline_table_state" (user_resize 2 250 SampleMore.ready).
Proof.
  destruct (resizes_keep_layout_stored "timeline_table_state" SampleMore.ready
              ready_connected) as (Hu & _).
  destruct (Hu 2%nat 250) as [[Heq | Hsync] _]; [|exact Hsync].
  apply (f_equal (fun g => Qt.sizes (Qt.hstate (gtable g)))) in Heq.
  vm_compute in Heq. discriminate Heq.
Defined.

Lemma stored_layouts_isolated_witness :
  settings (user_resize 2 250 SampleMore.ready) !! "alerts_table_state" = None.
Proof.
  assert (Hk : forall s, In s (Qt.resized_slots (gtable SampleMore.ready)) ->
                         Qt.slot_key s <> "alerts_table_state").
  { intros s Hin. vm_compute in Hin. destruct Hin as [<-|[]]. discriminate. }
  destruct (stored_layouts_isolated "alerts_table_state" SampleMore.ready Hk)
    as (Hu & _).
  destruct (Hu 2%nat 250) as (Hs & _). rewrite Hs. vm_compute. reflexivity.
Defined.

Lemma setup_connects_once_witness :
  connections (slot SampleLayout.manager) (gtable SampleMore.ready) = 1%nat /\
  connections (slot SampleLayout.manager)
    (gtable (setup (setup SampleLayout.manager SampleLayout.first_session).1
                   SampleMore.ready).2) = 1%nat.
Proof.
  assert (Hle : (connections (slot SampleLayout.manager)
                   (gtable SampleLayout.first_session) <= 1)%nat)
    by (vm_compute; lia).
  destruct (setup_connects_once SampleLayout.manager SampleLayout.first_session Hle)
    as (H1 & H2 & _).
  split; [exact H1|exact H2].
Defined.

Lemma widget0_settings :
  settings (SampleLayout.later_session (settings (gui (cleanup SampleMore.widget0)))) =
  settings (gui (cleanup SampleMore.widget0)).
Proof. apply later_session_settings. Qed.

Lemma cleanup_saves_for_next_session_witness :
  Qt.sizes (Qt.hstate (gtable
    (setup SampleLayout.manager
       (SampleLayout.later_session (settings (gui (cleanup SampleMore.widget0))))).2))
  = [100; 100; 100; 100; 100; 100; 100].
Proof.
  assert (Hcols : Qt.columnCount
                    (gtable (SampleLayout.later_session
                               (settings (gui (cleanup SampleMore.widget0))))) =
                  Qt.columnCount (gtable (gui SampleMore.widget0)))
    by (vm_compute; reflexivity).
  destruct (@cleanup_saves_for_next_session SampleLayout.snapshot_codec
              snapshot_codec_laws SampleMore.widget0 SampleLayout.manager
              SampleLayout.manager _ eq_refl eq_refl widget0_settings Hcols)
    as (_ & _ & Hsz & _).
  rewrite Hsz. vm_compute. reflexivity.
Defined.
